(** * ch32v203prog: the debug-module command layer and the flash programmer

    A shallow embedding of [src/ch32v203prog.c].  The target is driven over
    the RVSWD transport, which the component consumes through [rvswd.h]; that
    header is not part of the component, so its four operations and its
    result codes are a record the whole development is parameterised by.

    Platform: the component is built for the ESP32 family, so [size_t] and
    [int] are 32 bits wide and memory is little-endian.

    Every transport call, every [vTaskDelay], every log line and every call
    of the status callback is appended to a trace, so that statements about
    what the code does to the hardware, and in which order, are statements
    about lists of events. *)

From Stdlib Require Import ZArith List Bool Lia.
From Stdlib Require Strings.Byte.
Import ListNotations.
Local Open Scope Z_scope.

(** ** Machine integers and memory *)

Definition wrap32 (z : Z) : Z := z mod 2 ^ 32.

(** Conversion of a 32-bit unsigned value to [int] (two's complement). *)
Definition to_int (z : Z) : Z :=
  let u := wrap32 z in if u <? 2 ^ 31 then u else u - 2 ^ 32.

(** What a [void const *] gives access to: the byte at every offset from
    the pointer.  Offsets past the length a caller announces are the memory
    that follows the caller's object. *)
Definition buffer : Type := Z -> Byte.byte.

Definition byte_val (b : Byte.byte) : Z := Z.of_N (Byte.to_N b).

(** [p + i] for a byte pointer. *)
Definition ptr_add (p : buffer) (i : Z) : buffer := fun k => p (i + k).

(** The [n] bytes at [p], as [memcpy] reads them. *)
Definition load_bytes (p : buffer) (n : nat) : list Z :=
  map (fun k => byte_val (p (Z.of_nat k))) (seq 0 n).

(** Element [i] of a [uint32_t] array whose storage holds the bytes [bs]. *)
Definition word_at (bs : list Z) (i : nat) : Z :=
  nth (4 * i) bs 0
  + 2 ^ 8 * nth (4 * i + 1) bs 0
  + 2 ^ 16 * nth (4 * i + 2) bs 0
  + 2 ^ 24 * nth (4 * i + 3) bs 0.

(** The [n] elements of a [uint32_t] array whose storage holds [bs]. *)
Definition words_of (bs : list Z) (n : nat) : list Z :=
  map (word_at bs) (seq 0 n).

(** The storage of one [uint32_t]. *)
Definition word_bytes (w : Z) : list Z :=
  [w mod 2 ^ 8; (w / 2 ^ 8) mod 2 ^ 8; (w / 2 ^ 16) mod 2 ^ 8; (w / 2 ^ 24) mod 2 ^ 8].

(** The storage of a [uint32_t] array. *)
Definition bytes_of_words (ws : list Z) : list Z := flat_map word_bytes ws.

(** [memcmp(a, b, n) != 0] for two regions of the same size. *)
Fixpoint memcmp_differs (a b : list Z) : bool :=
  match a, b with
  | [], [] => false
  | x :: a', y :: b' => if x =? y then memcmp_differs a' b' else true
  | _, _ => true
  end.

(** ** Register numbers and constants (the [#define]s of the source) *)

Definition CH32_REG_DEBUG_DATA0 : Z := 0x04.
Definition CH32_REG_DEBUG_DMCONTROL : Z := 0x10.
Definition CH32_REG_DEBUG_DMSTATUS : Z := 0x11.
Definition CH32_REG_DEBUG_COMMAND : Z := 0x17.
Definition CH32_REG_DEBUG_PROGBUF0 : Z := 0x20.

Definition CH32_REGS_CSR : Z := 0x0000.
Definition CH32_REGS_GPR : Z := 0x1000.

Definition CH32_CODE_BEGIN : Z := 0x08000000.
Definition CH32_CODE_END : Z := 0x08004000.

Definition CH32_FLASH_STATR : Z := 0x4002200C.
Definition CH32_FLASH_CTLR : Z := 0x40022010.
Definition CH32_FLASH_ADDR : Z := 0x40022014.

Definition CH32_FLASH_STATR_BUSY : Z := Z.shiftl 1 0.
Definition CH32_FLASH_STATR_WRBUSY : Z := Z.shiftl 1 1.

Definition CH32_FLASH_CTLR_STRT : Z := Z.shiftl 1 6.
Definition CH32_FLASH_CTLR_FTPG : Z := Z.shiftl 1 16.
Definition CH32_FLASH_CTLR_FTER : Z := Z.shiftl 1 17.
Definition CH32_FLASH_CTLR_PGSTRT : Z := Z.shiftl 1 21.

(** [lw a0, 0(a1); ebreak] and [sw a0, 0(a1); ebreak] (compressed). *)
Definition ch32_readmem : list Byte.byte := [Byte.x88; Byte.x41; Byte.x02; Byte.x90].
Definition ch32_writemem : list Byte.byte := [Byte.x88; Byte.xc1; Byte.x02; Byte.x90].

(** A byte array seen through a pointer; what lies behind the array is not
    read by the callers in this file and is taken to be zero. *)
Definition buffer_of (bs : list Byte.byte) : buffer :=
  fun k => if k <? 0 then Byte.x00 else nth (Z.to_nat k) bs Byte.x00.

(** ** Events *)

(** The text handed to the status callback: ["Writing at 0x%08x"], kept as
    the address it prints. *)
Inductive status_msg : Type :=
| WritingAt (a : Z).

(** The log lines of the source, with their arguments.  The dump that
    follows a block mismatch, a heading and 64 lines for each of the two
    arrays, is one message. *)
Inductive log_msg : Type :=
| LogHaltFailed (dmstatus : Z)
| LogHalted
| LogResumeFailed (dmstatus : Z)
| LogResetFailed
| LogProgramTooLong (code_size : Z)
| LogProgramMisaligned (code_size : Z)
| LogCtlrBeforeUnlock (ctlr : Z)
| LogCtlrAfterUnlock (ctlr : Z)
| LogBlockMismatch (addr : Z) (wdata rdata : list Z)
| LogEraseFailed (addr : Z)
| LogWriteFailed (addr : Z)
| LogInitError (res : Z)
| LogResetError (res : Z)
| LogFailedToHalt
| LogUnlock (ok : bool)
| LogFailedToUnlock
| LogFailedToWriteFlash
| LogFailedToResetAndRun
| LogOkay.

Inductive event : Type :=
| EvInit                                   (* rvswd_init *)
| EvReset                                  (* rvswd_reset *)
| EvWrite (reg value : Z)                  (* rvswd_write *)
| EvRead (reg value : Z)                   (* rvswd_read and the value it stored *)
| EvDelayMs (ms : Z)                       (* vTaskDelay(pdMS_TO_TICKS(ms)) *)
| EvDelayTicks (ticks : Z)                 (* vTaskDelay(ticks) *)
| EvStatus (msg : status_msg) (progress total : Z)  (* ch32_status_callback *)
| EvLog (m : log_msg).                     (* ESP_LOGx and printf *)

(** An event that goes over the wire. *)
Definition is_hw (e : event) : bool :=
  match e with
  | EvInit | EvReset | EvWrite _ _ | EvRead _ _ => true
  | _ => false
  end.

Definition is_read_of (reg : Z) (e : event) : bool :=
  match e with
  | EvRead r _ => r =? reg
  | _ => false
  end.

Definition is_write (e : event) : bool :=
  match e with
  | EvWrite _ _ => true
  | _ => false
  end.

Definition is_log (e : event) : bool :=
  match e with
  | EvLog _ => true
  | _ => false
  end.

Definition is_status (e : event) : bool :=
  match e with
  | EvStatus _ _ _ => true
  | _ => false
  end.

(** ** The transport *)

(** The declarations of [rvswd.h]: the two result codes the source names and
    the four operations on a handle.  [D] is whatever stands behind the
    handle: the link and the target at its other end.  [rvswd_read] hands
    back, next to its result code, the value found in its out-parameter
    after the call. *)
Record rvswd_transport (D : Type) : Type := {
  RVSWD_OK : Z;
  RVSWD_FAIL : Z;
  rvswd_init : D -> Z * D;
  rvswd_reset : D -> Z * D;
  rvswd_write : Z -> Z -> D -> Z * D;
  rvswd_read : Z -> D -> Z * Z * D
}.

Arguments RVSWD_OK {D} _.
Arguments RVSWD_FAIL {D} _.
Arguments rvswd_init {D} _ _.
Arguments rvswd_reset {D} _ _.
Arguments rvswd_write {D} _ _ _ _.
Arguments rvswd_read {D} _ _ _.

(** ** The monad: state, trace, and fuel for the unbounded waits *)

Record world (D : Type) : Type := {
  dev : D;
  trace : list event
}.

Arguments dev {D} _.
Arguments trace {D} _.

Definition M (D A : Type) : Type := world D -> option (A * world D).

Definition ret {D A} (a : A) : M D A := fun w => Some (a, w).

Definition bind {D A B} (m : M D A) (k : A -> M D B) : M D B :=
  fun w => match m w with
           | Some (a, w') => k a w'
           | None => None
           end.

(** A wait that has used up its fuel. *)
Definition out_of_fuel {D A} : M D A := fun _ => None.

Declare Scope ch32_scope.
Delimit Scope ch32_scope with ch32.
Notation "x <- m ;; k" := (bind m (fun x => k))
  (at level 61, m at next level, right associativity) : ch32_scope.
Notation "m ;; k" := (bind m (fun _ => k))
  (at level 61, right associativity) : ch32_scope.
Local Open Scope ch32_scope.

Definition emit {D} (e : event) : M D unit :=
  fun w => Some (tt, {| dev := dev w; trace := trace w ++ [e] |}).

Definition vTaskDelay_ms {D} (ms : Z) : M D unit := emit (EvDelayMs ms).
Definition vTaskDelay {D} (ticks : Z) : M D unit := emit (EvDelayTicks ticks).
Definition log {D} (m : log_msg) : M D unit := emit (EvLog m).
(** The status callback is a weak symbol its user may replace: a call is
    recorded with its arguments and has no other effect. *)
Definition ch32_status_callback {D} (msg : status_msg) (progress total : Z) : M D unit :=
  emit (EvStatus msg progress total).

Section Program.

Context {D : Type} (hw : rvswd_transport D).

Definition do_init : M D Z :=
  fun w => let '(res, d) := rvswd_init hw (dev w) in
           Some (res, {| dev := d; trace := trace w ++ [EvInit] |}).

Definition do_reset : M D Z :=
  fun w => let '(res, d) := rvswd_reset hw (dev w) in
           Some (res, {| dev := d; trace := trace w ++ [EvReset] |}).

Definition do_write (reg value : Z) : M D Z :=
  fun w => let '(res, d) := rvswd_write hw reg value (dev w) in
           Some (res, {| dev := d; trace := trace w ++ [EvWrite reg value] |}).

(** The value lands in a [uint32_t]. *)
Definition do_read (reg : Z) : M D (Z * Z) :=
  fun w => let '(res, value, d) := rvswd_read hw reg (dev w) in
           Some ((res, wrap32 value),
                 {| dev := d; trace := trace w ++ [EvRead reg (wrap32 value)] |}).

(** *** CPU control *)

(** The polling loop the three CPU-control functions share:
<<
    uint8_t timeout = 5;
    while (1) {
        uint32_t value;
        rvswd_read(handle, CH32_REG_DEBUG_DMSTATUS, &value);
        if (<reached>) break;
        if (timeout == 0) { <on_timeout>; return <failure>; }
        timeout--;
        vTaskDelay(pdMS_TO_TICKS(10));
    }
>>
    [true] is the [break], [false] the [return] inside the loop. *)
Fixpoint poll_dmstatus (reached : Z -> bool) (on_timeout : Z -> M D unit)
    (timeout : nat) : M D bool :=
  rv <- do_read CH32_REG_DEBUG_DMSTATUS ;;
  let value := snd rv in
  if reached value then ret true
  else match timeout with
       | O => on_timeout value ;; ret false
       | S timeout' => vTaskDelay_ms 10 ;; poll_dmstatus reached on_timeout timeout'
       end.

Definition ch32_halt_microprocessor : M D Z :=
  do_write CH32_REG_DEBUG_DMCONTROL 0x80000001 ;;
  do_write CH32_REG_DEBUG_DMCONTROL 0x80000001 ;;
  halted <- poll_dmstatus (fun value => Z.land (Z.shiftr value 8) 3 =? 3)
                          (fun value => log (LogHaltFailed value)) 5 ;;
  if halted then
    do_write CH32_REG_DEBUG_DMCONTROL 0x00000001 ;;
    log LogHalted ;;
    ret (RVSWD_OK hw)
  else ret 0 (* return false; *).

Definition ch32_resume_microprocessor : M D Z :=
  do_write CH32_REG_DEBUG_DMCONTROL 0x80000001 ;;
  do_write CH32_REG_DEBUG_DMCONTROL 0x80000001 ;;
  do_write CH32_REG_DEBUG_DMCONTROL 0x00000001 ;;
  do_write CH32_REG_DEBUG_DMCONTROL 0x40000001 ;;
  resumed <- poll_dmstatus (fun value => Z.land (Z.shiftr value 10) 3 =? 3)
                           (fun value => log (LogResumeFailed value)) 5 ;;
  if resumed then ret (RVSWD_OK hw) else ret (RVSWD_FAIL hw).

Definition ch32_reset_microprocessor_and_run : M D Z :=
  do_write CH32_REG_DEBUG_DMCONTROL 0x80000001 ;;
  do_write CH32_REG_DEBUG_DMCONTROL 0x80000001 ;;
  do_write CH32_REG_DEBUG_DMCONTROL 0x00000001 ;;
  do_write CH32_REG_DEBUG_DMCONTROL 0x00000003 ;;
  was_reset <- poll_dmstatus (fun value => Z.land (Z.shiftr value 18) 3 =? 3)
                             (fun _ => log LogResetFailed) 5 ;;
  if was_reset then
    do_write CH32_REG_DEBUG_DMCONTROL 0x00000001 ;;
    vTaskDelay_ms 10 ;;
    do_write CH32_REG_DEBUG_DMCONTROL 0x10000001 ;;
    vTaskDelay_ms 10 ;;
    do_write CH32_REG_DEBUG_DMCONTROL 0x00000001 ;;
    vTaskDelay_ms 10 ;;
    ret (RVSWD_OK hw)
  else ret (RVSWD_FAIL hw).

(** *** Abstract commands *)

Definition ch32_write_cpu_reg (regno value : Z) : M D bool :=
  let command := Z.lor (Z.lor (Z.lor (Z.lor regno   (* Register to access. *)
                   (Z.shiftl 1 16))                 (* Write access. *)
                   (Z.shiftl 1 17))                 (* Perform transfer. *)
                   (Z.shiftl 2 20))                 (* 32-bit register access. *)
                   (Z.shiftl 0 24) in               (* Access register command. *)
  do_write CH32_REG_DEBUG_DATA0 value ;;
  do_write CH32_REG_DEBUG_COMMAND command ;;
  ret true.

(** The pair is the [bool] result and what was stored in [*value_out]. *)
Definition ch32_read_cpu_reg (regno : Z) : M D (bool * Z) :=
  let command := Z.lor (Z.lor (Z.lor (Z.lor regno   (* Register to access. *)
                   (Z.shiftl 0 16))                 (* Read access. *)
                   (Z.shiftl 1 17))                 (* Perform transfer. *)
                   (Z.shiftl 2 20))                 (* 32-bit register access. *)
                   (Z.shiftl 0 24) in               (* Access register command. *)
  do_write CH32_REG_DEBUG_COMMAND command ;;
  rv <- do_read CH32_REG_DEBUG_DATA0 ;;
  ret (true, snd rv).

(** [for (size_t i = 0; i < n; i++) body(i);] is [for_each (seq 0 n) body]. *)
Fixpoint for_each (indices : list nat) (body : nat -> M D unit) : M D unit :=
  match indices with
  | [] => ret tt
  | i :: rest => body i ;; for_each rest body
  end.

(** The same loop when each turn stores one element of a local array. *)
Fixpoint for_collect (indices : list nat) (body : nat -> M D Z) : M D (list Z) :=
  match indices with
  | [] => ret []
  | i :: rest => v <- body i ;; vs <- for_collect rest body ;; ret (v :: vs)
  end.

(** [uint32_t tmp[8] = {0}; memcpy(tmp, code, code_size);] as the 32 bytes
    of [tmp]. *)
Definition debug_code_image (code : buffer) (code_size : Z) : list Z :=
  load_bytes code (Z.to_nat code_size) ++ repeat 0 (32 - Z.to_nat code_size).

Definition ch32_run_debug_code (code : buffer) (code_size : Z) : M D bool :=
  if code_size >? 8 * 4 then
    log (LogProgramTooLong code_size) ;;
    ret false
  else if negb (Z.land code_size 1 =? 0) then
    log (LogProgramMisaligned code_size) ;;
    ret false
  else
    (* Copy into program buffer. *)
    let tmp := debug_code_image code code_size in
    for_each (seq 0 8) (fun i =>
      do_write (CH32_REG_DEBUG_PROGBUF0 + Z.of_nat i) (word_at tmp i) ;; ret tt) ;;
    (* Run program buffer. *)
    let command := Z.lor (Z.lor (Z.lor
                     (Z.shiftl 0 17)     (* Do not perform transfer. *)
                     (Z.shiftl 1 18))    (* Run program buffer afterwards. *)
                     (Z.shiftl 2 20))    (* 32-bit register access. *)
                     (Z.shiftl 0 24) in  (* Access register command. *)
    do_write CH32_REG_DEBUG_COMMAND command ;;
    ret true.

(** *** Memory bridge *)

Definition ch32_read_memory_word (address : Z) : M D (bool * Z) :=
  ch32_write_cpu_reg (CH32_REGS_GPR + 11) address ;;
  ch32_run_debug_code (buffer_of ch32_readmem) 4 ;;
  rv <- ch32_read_cpu_reg (CH32_REGS_GPR + 10) ;;
  ret (true, snd rv).

Definition ch32_write_memory_word (address value : Z) : M D bool :=
  ch32_write_cpu_reg (CH32_REGS_GPR + 10) value ;;
  ch32_write_cpu_reg (CH32_REGS_GPR + 11) address ;;
  ch32_run_debug_code (buffer_of ch32_writemem) 4 ;;
  ret true.

(** *** Flash programmer *)

(** [while (value & CH32_FLASH_STATR_BUSY) { vTaskDelay(1); read STATR }]:
    no bound in the source, one unit of fuel per turn here. *)
Fixpoint wait_flash_loop (fuel : nat) (value : Z) : M D unit :=
  if negb (Z.land value CH32_FLASH_STATR_BUSY =? 0) then
    match fuel with
    | O => out_of_fuel
    | S fuel' =>
        vTaskDelay 1 ;;
        rv <- ch32_read_memory_word CH32_FLASH_STATR ;;
        wait_flash_loop fuel' (snd rv)
    end
  else ret tt.

Definition ch32_wait_flash (fuel : nat) : M D unit :=
  rv <- ch32_read_memory_word CH32_FLASH_STATR ;;
  wait_flash_loop fuel (snd rv).

Fixpoint wait_flash_write_loop (fuel : nat) (value : Z) : M D unit :=
  if negb (Z.land value CH32_FLASH_STATR_WRBUSY =? 0) then
    match fuel with
    | O => out_of_fuel
    | S fuel' =>
        rv <- ch32_read_memory_word CH32_FLASH_STATR ;;
        wait_flash_write_loop fuel' (snd rv)
    end
  else ret tt.

Definition ch32_wait_flash_write (fuel : nat) : M D unit :=
  rv <- ch32_read_memory_word CH32_FLASH_STATR ;;
  wait_flash_write_loop fuel (snd rv).

Definition ch32_unlock_flash : M D bool :=
  rv <- ch32_read_memory_word CH32_FLASH_CTLR ;;
  log (LogCtlrBeforeUnlock (snd rv)) ;;
  (* the early return for an unlocked FLASH is commented out in the source *)
  (* Enter the unlock keys. *)
  ch32_write_memory_word 0x40022004 0x45670123 ;;
  ch32_write_memory_word 0x40022004 0xCDEF89AB ;;
  ch32_write_memory_word 0x40022008 0x45670123 ;;
  ch32_write_memory_word 0x40022008 0xCDEF89AB ;;
  ch32_write_memory_word 0x40022024 0x45670123 ;;
  ch32_write_memory_word 0x40022024 0xCDEF89AB ;;
  (* Check again if FLASH is unlocked. *)
  rv <- ch32_read_memory_word CH32_FLASH_CTLR ;;
  let ctlr := snd rv in
  log (LogCtlrAfterUnlock ctlr) ;;
  ret (Z.land ctlr 0x8080 =? 0).

Definition ch32_erase_flash_block (fuel : nat) (addr : Z) : M D bool :=
  if negb (addr mod 256 =? 0) then ret false
  else
    ch32_wait_flash fuel ;;
    ch32_write_memory_word CH32_FLASH_CTLR CH32_FLASH_CTLR_FTER ;;
    ch32_write_memory_word CH32_FLASH_ADDR addr ;;
    ch32_write_memory_word CH32_FLASH_CTLR (Z.lor CH32_FLASH_CTLR_FTER CH32_FLASH_CTLR_STRT) ;;
    ch32_wait_flash fuel ;;
    ch32_write_memory_word CH32_FLASH_CTLR 0 ;;
    ret true.

Definition ch32_write_flash_block (fuel : nat) (addr : Z) (data : buffer) : M D bool :=
  if negb (addr mod 256 =? 0) then ret false
  else
    ch32_wait_flash fuel ;;
    ch32_write_memory_word CH32_FLASH_CTLR CH32_FLASH_CTLR_FTPG ;;
    ch32_write_memory_word CH32_FLASH_ADDR addr ;;
    (* uint32_t wdata[64]; memcpy(wdata, data, sizeof(wdata)); *)
    let wdata := load_bytes data 256 in
    for_each (seq 0 64) (fun i =>
      ch32_write_memory_word (wrap32 (addr + Z.of_nat i * 4)) (word_at wdata i) ;;
      ch32_wait_flash_write fuel) ;;
    ch32_write_memory_word CH32_FLASH_CTLR (Z.lor CH32_FLASH_CTLR_FTPG CH32_FLASH_CTLR_PGSTRT) ;;
    ch32_wait_flash fuel ;;
    ch32_write_memory_word CH32_FLASH_CTLR 0 ;;
    vTaskDelay 1 ;;
    rdata <- for_collect (seq 0 64) (fun i =>
      vTaskDelay 0 ;;
      rv <- ch32_read_memory_word (wrap32 (addr + Z.of_nat i * 4)) ;;
      ret (snd rv)) ;;
    if memcmp_differs wdata (bytes_of_words rdata) then
      log (LogBlockMismatch addr (words_of wdata 64) rdata) ;;
      ret false
    else ret true.

(** [for (size_t i = 0; i < data_len; i += 256)]: [n] bounds the number of
    turns, [fuel] is handed to the waits inside. *)
Fixpoint write_flash_loop (fuel n : nat) (addr : Z) (data : buffer) (data_len i : Z)
    : M D bool :=
  if i <? data_len then
    match n with
    | O => out_of_fuel
    | S n' =>
        vTaskDelay 0 ;;
        ch32_status_callback (WritingAt (wrap32 (addr + i))) (to_int i) (to_int data_len) ;;
        erased <- ch32_erase_flash_block fuel (wrap32 (addr + i)) ;;
        if negb erased then
          log (LogEraseFailed (wrap32 (addr + i))) ;;
          ret false
        else
          written <- ch32_write_flash_block fuel (wrap32 (addr + i)) (ptr_add data i) ;;
          if negb written then
            log (LogWriteFailed (wrap32 (addr + i))) ;;
            ret false
          else write_flash_loop fuel n' addr data data_len (wrap32 (i + 256))
    end
  else ret true.

Definition ch32_write_flash (fuel : nat) (addr : Z) (data : buffer) (data_len : Z)
    : M D bool :=
  if negb (addr mod 64 =? 0) then ret false
  else write_flash_loop fuel fuel addr data data_len 0.

(** *** Orchestrator *)

Definition ch32_program (fuel : nat) (firmware : buffer) (firmware_len : Z) : M D unit :=
  res <- do_init ;;
  if negb (res =? RVSWD_OK hw) then log (LogInitError res)
  else
    res <- do_reset ;;
    if negb (res =? RVSWD_OK hw) then log (LogResetError res)
    else
      res <- ch32_halt_microprocessor ;;
      if negb (res =? RVSWD_OK hw) then log LogFailedToHalt
      else
        bool_res <- ch32_unlock_flash ;;
        log (LogUnlock bool_res) ;;
        if negb bool_res then log LogFailedToUnlock
        else
          bool_res <- ch32_write_flash fuel 0x08000000 firmware firmware_len ;;
          if negb bool_res then log LogFailedToWriteFlash
          else
            res <- ch32_reset_microprocessor_and_run ;;
            if negb (res =? RVSWD_OK hw) then log LogFailedToResetAndRun
            else log LogOkay.

End Program.

(** ** Simulated targets *)

(** A target whose every register read stores [v], over a transport that
    never fails.  The result codes are those of a C enumeration that lists
    OK first. *)
Definition const_target (v : Z) : rvswd_transport unit := {|
  RVSWD_OK := 0;
  RVSWD_FAIL := 1;
  rvswd_init := fun d => (0, d);
  rvswd_reset := fun d => (0, d);
  rvswd_write := fun _ _ d => (0, d);
  rvswd_read := fun _ d => (0, v, d)
|}.

(** A transport on which every operation fails. *)
Definition dead_link : rvswd_transport unit := {|
  RVSWD_OK := 0;
  RVSWD_FAIL := 1;
  rvswd_init := fun d => (1, d);
  rvswd_reset := fun d => (1, d);
  rvswd_write := fun _ _ d => (1, d);
  rvswd_read := fun _ d => (1, 0, d)
|}.

Definition power_on {D} (d : D) : world D := {| dev := d; trace := [] |}.

(** A target with a working debug module and flash controller, for running
    the programmer end to end: two data registers of the hart ([a0], [a1]),
    the first word of the program buffer, the last value of the control
    register, and the memory as the list of the stores made, newest first.
    It is never busy.  Its flash controller starts locked (bits 7 and 15 of
    its control register), is unlocked by the second key in the key register
    and in the mode-key register, and erases a block to 0xE339E339. *)
Record sim : Type := {
  sim_data0 : Z;
  sim_a0 : Z;
  sim_a1 : Z;
  sim_progbuf0 : Z;
  sim_dmcontrol : Z;
  sim_mem : list (Z * Z)
}.

Definition sim_load (m : list (Z * Z)) (a : Z) : Z :=
  match find (fun av => fst av =? a) m with
  | Some av => snd av
  | None => 0
  end.

Definition sim_store (m : list (Z * Z)) (a v : Z) : list (Z * Z) :=
  let ctlr := sim_load m 0x40022010 in
  if a =? 0x40022004 then
    if v =? 0xCDEF89AB then (0x40022010, Z.land ctlr (Z.lnot 0x80)) :: m else m
  else if a =? 0x40022024 then
    if v =? 0xCDEF89AB then (0x40022010, Z.land ctlr (Z.lnot 0x8000)) :: m else m
  else if a =? 0x40022008 then m
  else if a =? 0x40022010 then
    let m' := (a, Z.lor (Z.land v (Z.lnot 0x8080)) (Z.land ctlr 0x8080)) :: m in
    if (Z.land ctlr 0x8080 =? 0) && (Z.land v 0x00020040 =? 0x00020040) then
      let block := sim_load m 0x40022014 in
      fold_left (fun acc k => (block + 4 * Z.of_nat k, 0xE339E339) :: acc) (seq 0 64) m'
    else m'
  else (a, v) :: m.

Definition sim_write (reg value : Z) (s : sim) : Z * sim :=
  if reg =? 0x04 then
    (0, {| sim_data0 := value; sim_a0 := sim_a0 s; sim_a1 := sim_a1 s;
           sim_progbuf0 := sim_progbuf0 s; sim_dmcontrol := sim_dmcontrol s;
           sim_mem := sim_mem s |})
  else if reg =? 0x10 then
    (0, {| sim_data0 := sim_data0 s; sim_a0 := sim_a0 s; sim_a1 := sim_a1 s;
           sim_progbuf0 := sim_progbuf0 s; sim_dmcontrol := value;
           sim_mem := sim_mem s |})
  else if reg =? 0x20 then
    (0, {| sim_data0 := sim_data0 s; sim_a0 := sim_a0 s; sim_a1 := sim_a1 s;
           sim_progbuf0 := value; sim_dmcontrol := sim_dmcontrol s;
           sim_mem := sim_mem s |})
  else if reg =? 0x17 then
    let regno := Z.land value 0xFFFF in
    (* transfer between data0 and x10 or x11 *)
    let '(d0, a0, a1) :=
      if Z.testbit value 17 then
        if Z.testbit value 16 then
          if regno =? 0x100A then (sim_data0 s, sim_data0 s, sim_a1 s)
          else if regno =? 0x100B then (sim_data0 s, sim_a0 s, sim_data0 s)
          else (sim_data0 s, sim_a0 s, sim_a1 s)
        else
          if regno =? 0x100A then (sim_a0 s, sim_a0 s, sim_a1 s)
          else if regno =? 0x100B then (sim_a1 s, sim_a0 s, sim_a1 s)
          else (0, sim_a0 s, sim_a1 s)
      else (sim_data0 s, sim_a0 s, sim_a1 s) in
    (* run the program buffer: lw a0, 0(a1) or sw a0, 0(a1) *)
    let '(a0', mem') :=
      if Z.testbit value 18 then
        if sim_progbuf0 s =? 0x90024188 then (sim_load (sim_mem s) a1, sim_mem s)
        else if sim_progbuf0 s =? 0x9002c188 then (a0, sim_store (sim_mem s) a1 a0)
        else (a0, sim_mem s)
      else (a0, sim_mem s) in
    (0, {| sim_data0 := d0; sim_a0 := a0'; sim_a1 := a1;
           sim_progbuf0 := sim_progbuf0 s; sim_dmcontrol := sim_dmcontrol s;
           sim_mem := mem' |})
  else (0, s).

Definition sim_read (reg : Z) (s : sim) : Z * Z * sim :=
  if reg =? 0x04 then (0, sim_data0 s, s)
  else if reg =? 0x11 then
    let c := sim_dmcontrol s in
    (0,
     if Z.testbit c 31 then 0x00000300         (* halted *)
     else if Z.testbit c 30 then 0x00030C00    (* running, resume acknowledged *)
     else if Z.testbit c 1 then 0x000C0000     (* reset seen *)
     else 0,
     s)
  else (0, 0, s).

Definition sim_target : rvswd_transport sim := {|
  RVSWD_OK := 0;
  RVSWD_FAIL := 1;
  rvswd_init := fun s => (0, s);
  rvswd_reset := fun s => (0, s);
  rvswd_write := sim_write;
  rvswd_read := sim_read
|}.

(** The simulated target after power-up: flash controller locked. *)
Definition sim_reset : sim := {|
  sim_data0 := 0; sim_a0 := 0; sim_a1 := 0; sim_progbuf0 := 0; sim_dmcontrol := 0;
  sim_mem := [(0x40022010, 0x8080)]
|}.

(** An image whose byte at offset [k] is [k mod 251]. *)
Definition test_image : buffer :=
  fun k => match Byte.of_N (Z.to_N (k mod 251)) with
           | Some b => b
           | None => Byte.x00
           end.

(** The [n] words of the simulated memory from [addr] on. *)
Definition sim_words (s : sim) (addr : Z) (n : nat) : list Z :=
  map (fun k => sim_load (sim_mem s) (addr + 4 * Z.of_nat k)) (seq 0 n).

Definition zeros : buffer := fun _ => Byte.x00.

(** ** What a run appends to the trace *)

(** Whenever [m] returns, it has appended events [evs] with [P result evs]. *)
Definition emits {D A} (m : M D A) (P : A -> list event -> Prop) : Prop :=
  forall w a w', m w = Some (a, w') ->
    exists evs, trace w' = trace w ++ evs /\ P a evs.

(** [m] returns from every state, having appended [evs] with [P result evs]. *)
Definition total {D A} (m : M D A) (P : A -> list event -> Prop) : Prop :=
  forall w, exists a w' evs,
    m w = Some (a, w') /\ trace w' = trace w ++ evs /\ P a evs.

(** The transport traffic of the abstract commands and of the memory bridge,
    written out register by register. *)
Definition write_cpu_reg_events (regno value : Z) : list event :=
  [EvWrite 0x04 value; EvWrite 0x17 (Z.lor regno 0x00230000)].

Definition read_cpu_reg_events (regno value : Z) : list event :=
  [EvWrite 0x17 (Z.lor regno 0x00220000); EvRead 0x04 value].

(** Eight program-buffer writes, registers 0x20 to 0x27 in order, then the
    command that runs the buffer. *)
Definition run_debug_code_events (tmp : list Z) : list event :=
  map (fun i => EvWrite (0x20 + Z.of_nat i) (nth i tmp 0)) (seq 0 8)
  ++ [EvWrite 0x17 0x00240000].

(** The load and the store snippet as the eight words of the buffer. *)
Definition readmem_words : list Z := [0x90024188; 0; 0; 0; 0; 0; 0; 0].
Definition writemem_words : list Z := [0x9002c188; 0; 0; 0; 0; 0; 0; 0].

Definition read_memory_word_events (address value : Z) : list event :=
  write_cpu_reg_events 0x100B address
  ++ run_debug_code_events readmem_words
  ++ read_cpu_reg_events 0x100A value.

Definition write_memory_word_events (address value : Z) : list event :=
  write_cpu_reg_events 0x100A value
  ++ write_cpu_reg_events 0x100B address
  ++ run_debug_code_events writemem_words.

(** Byte [k] of the code once it is zero-padded: the code's own byte below
    [code_size], zero from there on. *)
Definition zero_padded (code : buffer) (code_size k : Z) : Z :=
  if k <? code_size then byte_val (code k) else 0.

(** Word [i] of the zero-padded code, least significant byte first. *)
Definition progbuf_word (code : buffer) (code_size : Z) (i : nat) : Z :=
  zero_padded code code_size (4 * Z.of_nat i)
  + 2 ^ 8 * zero_padded code code_size (4 * Z.of_nat i + 1)
  + 2 ^ 16 * zero_padded code code_size (4 * Z.of_nat i + 2)
  + 2 ^ 24 * zero_padded code code_size (4 * Z.of_nat i + 3).

(** The key sequence of the unlock: address and value of each of the six
    memory writes, in order. *)
Definition unlock_key_writes : list (Z * Z) :=
  [ (0x40022004, 0x45670123); (0x40022004, 0xCDEF89AB);
    (0x40022008, 0x45670123); (0x40022008, 0xCDEF89AB);
    (0x40022024, 0x45670123); (0x40022024, 0xCDEF89AB) ].

Definition unlock_key_events : list event :=
  flat_map (fun av => write_memory_word_events (fst av) (snd av)) unlock_key_writes.

(** [v] is a value the transport can store on a read of [reg]. *)
Definition readable {D} (hw : rvswd_transport D) (reg v : Z) : Prop :=
  exists d, wrap32 (snd (fst (rvswd_read hw reg d))) = v.

(** The status register never shows 0b11 in the two bits at [shift]. *)
Definition status_never {D} (hw : rvswd_transport D) (shift : Z) : Prop :=
  forall v, readable hw 0x11 v -> Z.land (Z.shiftr v shift) 3 <> 3.

(** Polls of the status register that stored [vs], 10 ms apart. *)
Fixpoint poll_events (vs : list Z) : list event :=
  match vs with
  | [] => []
  | v :: rest =>
      match rest with
      | [] => [EvRead 0x11 v]
      | _ :: _ => EvRead 0x11 v :: EvDelayMs 10 :: poll_events rest
      end
  end.

Definition count_polls (evs : list event) : nat :=
  length (filter (is_read_of 0x11) evs).

(** Writes of the debug-module control register. *)
Definition dmcontrol_writes (values : list Z) : list event :=
  map (EvWrite 0x10) values.

(** The traffic of [ch32_wait_flash] when the status register read
    [polls], one value per turn: the first read at once, each later one
    after a tick. *)
Definition wait_flash_events (polls : list Z) : list event :=
  match polls with
  | [] => []
  | v :: rest =>
      read_memory_word_events 0x4002200C v
      ++ flat_map (fun v' => EvDelayTicks 1 :: read_memory_word_events 0x4002200C v') rest
  end.

(** The traffic of [ch32_wait_flash_write]: the same reads back to back. *)
Definition wait_flash_write_events (polls : list Z) : list event :=
  flat_map (read_memory_word_events 0x4002200C) polls.

(** The flash controller lets go within [fuel] further polls, whatever
    state the target is in. *)
Definition waits_return {D} (hw : rvswd_transport D) (fuel : nat) : Prop :=
  forall w, ch32_wait_flash hw fuel w <> None /\ ch32_wait_flash_write hw fuel w <> None.

(** The traffic of the word loop of a block program: word [i] goes to
    [addr + 4 i], followed by a wait for the write to finish. *)
Definition program_words_events (addr : Z) (word : nat -> Z) (evs : list event) : Prop :=
  exists ess,
    Forall2 (fun i es => exists polls,
               es = write_memory_word_events (wrap32 (addr + Z.of_nat i * 4)) (word i)
                    ++ wait_flash_write_events polls)
            (seq 0 64) ess /\
    evs = concat ess.

(** The traffic of the read-back of a block that read [rdata]. *)
Definition readback_events (addr : Z) (rdata : list Z) : list event :=
  concat (map (fun iv => EvDelayTicks 0
                         :: read_memory_word_events (wrap32 (addr + Z.of_nat (fst iv) * 4)) (snd iv))
              (combine (seq 0 64) rdata)).

(** [m] returns from every state. *)
Definition returns {D A} (m : M D A) : Prop := forall w, m w <> None.

(** The traffic of a block erase whose two waits polled [p1] and [p2]. *)
Definition erase_events (addr : Z) (p1 p2 : list Z) : list event :=
  wait_flash_events p1
  ++ write_memory_word_events 0x40022010 0x00020000
  ++ write_memory_word_events 0x40022014 addr
  ++ write_memory_word_events 0x40022010 0x00020040
  ++ wait_flash_events p2
  ++ write_memory_word_events 0x40022010 0.

(** The traffic of a block program up to the read-back. *)
Definition program_events (addr : Z) (p1 : list Z) (words : list event) (p2 : list Z)
    : list event :=
  wait_flash_events p1
  ++ write_memory_word_events 0x40022010 0x00010000
  ++ write_memory_word_events 0x40022014 addr
  ++ words
  ++ write_memory_word_events 0x40022010 0x00210000
  ++ wait_flash_events p2
  ++ write_memory_word_events 0x40022010 0
  ++ [EvDelayTicks 1].

(** ** The write loop, chunk by chunk *)

(** The number of 256-byte chunks of an image: [data_len / 256], rounded
    up. *)
Definition chunk_count (data_len : Z) : nat := Z.to_nat ((data_len + 255) / 256).

(** [count] byte offsets 256 apart, in increasing order. *)
Fixpoint offsets_from (start : Z) (count : nat) : list Z :=
  match count with
  | O => []
  | S count' => start :: offsets_from (start + 256) count'
  end.

(** The byte offsets of the chunks of an image: 0, 256, 512, ... *)
Definition chunk_offsets (data_len : Z) : list Z := offsets_from 0 (chunk_count data_len).

(** The event of the status callback for the chunk at [offset]. *)
Definition status_event (addr data_len offset : Z) : event :=
  EvStatus (WritingAt (wrap32 (addr + offset))) offset data_len.

Section Chunks.

Context {D : Type} (hw : rvswd_transport D).

(** One chunk as the specification words it: report progress [offset] of
    [data_len], erase the block, program the block; [false] as soon as one
    of the two fails. *)
Definition write_chunk (fuel : nat) (addr : Z) (data : buffer) (data_len offset : Z)
    : M D bool :=
  vTaskDelay 0 ;;
  ch32_status_callback (WritingAt (wrap32 (addr + offset))) offset data_len ;;
  erased <- ch32_erase_flash_block hw fuel (wrap32 (addr + offset)) ;;
  if erased then
    written <- ch32_write_flash_block hw fuel (wrap32 (addr + offset)) (ptr_add data offset) ;;
    if written then ret true
    else log (LogWriteFailed (wrap32 (addr + offset))) ;; ret false
  else log (LogEraseFailed (wrap32 (addr + offset))) ;; ret false.

(** The chunks at [offsets] one after the other, up to the first that
    fails. *)
Fixpoint write_chunks (fuel : nat) (addr : Z) (data : buffer) (data_len : Z)
    (offsets : list Z) : M D bool :=
  match offsets with
  | [] => ret true
  | offset :: rest =>
      ok <- write_chunk fuel addr data data_len offset ;;
      if ok then write_chunks fuel addr data data_len rest else ret false
  end.

(** The world once the chunk at [offset] has been announced. *)
Definition announced (addr data_len offset : Z) (w : world D) : world D :=
  {| dev := dev w;
     trace := trace w ++ [EvDelayTicks 0; status_event addr data_len offset] |}.

(** One erase-and-program cycle per offset, each of them successful, taking
    [w] to [w']: the block at [addr + offset] is erased, then programmed
    with the 64 words held by the 256 bytes at [data + offset], which are
    also the 64 words read back. *)
Fixpoint block_cycles (fuel : nat) (addr : Z) (data : buffer) (data_len : Z)
    (offsets : list Z) (w w' : world D) : Prop :=
  match offsets with
  | [] => w' = w
  | offset :: rest =>
      exists w1 w2 p1 words p2,
        ch32_erase_flash_block hw fuel (wrap32 (addr + offset))
          (announced addr data_len offset w) = Some (true, w1) /\
        ch32_write_flash_block hw fuel (wrap32 (addr + offset)) (ptr_add data offset) w1
        = Some (true, w2) /\
        program_words_events (wrap32 (addr + offset))
          (word_at (load_bytes (ptr_add data offset) 256)) words /\
        trace w2 = trace w1
                   ++ program_events (wrap32 (addr + offset)) p1 words p2
                   ++ readback_events (wrap32 (addr + offset))
                        (words_of (load_bytes (ptr_add data offset) 256) 64) /\
        block_cycles fuel addr data data_len rest w2 w'
  end.

End Chunks.

(** No call of the status callback among [evs]. *)
Definition quiet (evs : list event) : Prop := filter is_status evs = [].

(** ** Further notions used to state what the code does *)

(** Every value the transport can store on a read of data register 0 has
    the bits of [mask] set in part: seen through the memory bridge, the
    flash status register always shows that busy bit. *)
Definition always_busy {D} (hw : rvswd_transport D) (mask : Z) : Prop :=
  forall v, readable hw 0x04 v -> Z.land v mask <> 0.

(** Two transports over the same target that agree on everything but the
    result codes of [rvswd_write] and [rvswd_read]. *)
Definition same_link {D} (hw1 hw2 : rvswd_transport D) : Prop :=
  RVSWD_OK hw1 = RVSWD_OK hw2 /\
  RVSWD_FAIL hw1 = RVSWD_FAIL hw2 /\
  (forall d, rvswd_init hw1 d = rvswd_init hw2 d) /\
  (forall d, rvswd_reset hw1 d = rvswd_reset hw2 d) /\
  (forall reg value d,
     snd (rvswd_write hw1 reg value d) = snd (rvswd_write hw2 reg value d)) /\
  (forall reg d,
     snd (fst (rvswd_read hw1 reg d)) = snd (fst (rvswd_read hw2 reg d)) /\
     snd (rvswd_read hw1 reg d) = snd (rvswd_read hw2 reg d)).

(** The target of [const_target] behind a link whose every read and write
    reports failure while still carrying the data. *)
Definition flaky_target (v : Z) : rvswd_transport unit := {|
  RVSWD_OK := 0;
  RVSWD_FAIL := 1;
  rvswd_init := fun d => (0, d);
  rvswd_reset := fun d => (0, d);
  rvswd_write := fun _ _ d => (1, d);
  rvswd_read := fun _ d => (1, v, d)
|}.

(** Two computations that do the same from every state. *)
Definition same_run {D A} (m1 m2 : M D A) : Prop := forall w, m1 w = m2 w.

(** The percentage the default status callback prints,
    [progress * 100 / total] in [int] arithmetic; [None] where C leaves the
    expression undefined (overflow of the product, division by zero). *)
Definition default_status_percent (progress total : Z) : option Z :=
  let product := progress * 100 in
  if (product <? - 2 ^ 31) || (2 ^ 31 - 1 <? product) then None
  else if total =? 0 then None
  else Some (Z.quot product total).

(** The outcome messages of [ch32_program]. *)
Definition is_outcome (m : log_msg) : bool :=
  match m with
  | LogInitError _ | LogResetError _ | LogFailedToHalt | LogFailedToUnlock
  | LogFailedToWriteFlash | LogFailedToResetAndRun | LogOkay => true
  | _ => false
  end.

(** The error messages of [ch32_write_flash]. *)
Definition is_write_flash_error (e : event) : bool :=
  match e with
  | EvLog (LogEraseFailed _) | EvLog (LogWriteFailed _) => true
  | _ => false
  end.

(** The last event of [evs] is one of the outcome messages. *)
Definition ends_with_outcome (evs : list event) : Prop :=
  exists before m, evs = before ++ [EvLog m] /\ is_outcome m = true.

(** ** Properties of the monad *)

Section MonadFacts.

Context {D : Type}.

Lemma total_ret {A} (a : A) (R : A -> list event -> Prop) :
  R a [] -> total (D := D) (ret a) R.
Proof.
  intros HR w. exists a, w, []. rewrite app_nil_r. auto.
Qed.

Lemma total_bind {A B} (m : M D A) (k : A -> M D B) P (R : B -> list event -> Prop) :
  total m P ->
  (forall a e1, P a e1 -> total (k a) (fun b e2 => R b (e1 ++ e2))) ->
  total (bind m k) R.
Proof.
  intros Hm Hk w.
  destruct (Hm w) as (a & w1 & e1 & Em & Et & HP).
  destruct (Hk a e1 HP w1) as (b & w2 & e2 & Ek & Et2 & HR).
  exists b, w2, (e1 ++ e2). unfold bind. rewrite Em.
  repeat split; auto. rewrite Et2, Et, app_assoc. reflexivity.
Qed.

Lemma total_weaken {A} (m : M D A) (P Q : A -> list event -> Prop) :
  total m P -> (forall a evs, P a evs -> Q a evs) -> total m Q.
Proof.
  intros Hm HPQ w. destruct (Hm w) as (a & w' & evs & E & Et & HP).
  exists a, w', evs. auto.
Qed.

Lemma total_emit (e : event) :
  total (D := D) (emit e) (fun _ evs => evs = [e]).
Proof.
  intros w. exists tt, {| dev := dev w; trace := trace w ++ [e] |}, [e]. auto.
Qed.

Lemma total_emits {A} (m : M D A) P : total m P -> emits m P.
Proof.
  intros Hm w a w' E. destruct (Hm w) as (a0 & w0 & evs & E0 & Et & HP).
  rewrite E in E0. injection E0 as -> ->. eauto.
Qed.

Lemma emits_emit (e : event) :
  emits (D := D) (emit e) (fun _ evs => evs = [e]).
Proof. apply total_emits, total_emit. Qed.

Lemma emits_ret {A} (a : A) (R : A -> list event -> Prop) :
  R a [] -> emits (D := D) (ret a) R.
Proof. intros. apply total_emits, total_ret. assumption. Qed.

Lemma emits_bind {A B} (m : M D A) (k : A -> M D B) P (R : B -> list event -> Prop) :
  emits m P ->
  (forall a e1, P a e1 -> emits (k a) (fun b e2 => R b (e1 ++ e2))) ->
  emits (bind m k) R.
Proof.
  intros Hm Hk w b w2 E. unfold bind in E.
  destruct (m w) as [[a w1]|] eqn:Em; [|discriminate].
  destruct (Hm _ _ _ Em) as (e1 & Et & HP).
  destruct (Hk a e1 HP _ _ _ E) as (e2 & Et2 & HR).
  exists (e1 ++ e2). split; auto. rewrite Et2, Et, app_assoc. reflexivity.
Qed.

Lemma emits_weaken {A} (m : M D A) (P Q : A -> list event -> Prop) :
  emits m P -> (forall a evs, P a evs -> Q a evs) -> emits m Q.
Proof.
  intros Hm HPQ w a w' E. destruct (Hm _ _ _ E) as (evs & Et & HP). eauto.
Qed.

Lemma emits_out_of_fuel {A} (R : A -> list event -> Prop) :
  emits (D := D) out_of_fuel R.
Proof. intros w a w' E. discriminate. Qed.

End MonadFacts.

(** One step of a proof about a sequence: the next command is described by
    [lem], its events are named and the run goes on. *)
Tactic Notation "tstep" open_constr(lem) :=
  eapply total_bind; [ apply lem | cbv beta; intros ? ? ? ].
Tactic Notation "estep" open_constr(lem) :=
  eapply emits_bind; [ apply lem | cbv beta; intros ? ? ? ].

(** ** The transport primitives *)

Section Primitives.

Context {D : Type} (hw : rvswd_transport D).

Lemma do_write_total (reg value : Z) :
  total (do_write hw reg value) (fun _ evs => evs = [EvWrite reg value]).
Proof.
  intros w. unfold do_write.
  destruct (rvswd_write hw reg value (dev w)) as [res d].
  eexists _, _, _. split; [reflexivity|]. simpl. auto.
Qed.

Lemma do_read_total (reg : Z) :
  total (do_read hw reg)
        (fun rv evs => evs = [EvRead reg (snd rv)] /\ 0 <= snd rv < 2 ^ 32
                       /\ readable hw reg (snd rv)).
Proof.
  intros w. unfold do_read.
  destruct (rvswd_read hw reg (dev w)) as [[res value] d] eqn:E.
  eexists _, _, _. split; [reflexivity|]. simpl.
  split; [reflexivity|]. split; [reflexivity|]. split.
  - apply Z.mod_pos_bound. lia.
  - exists (dev w). rewrite E. reflexivity.
Qed.

Lemma write_command_value (regno : Z) :
  Z.lor (Z.lor (Z.lor (Z.lor regno (Z.shiftl 1 16)) (Z.shiftl 1 17)) (Z.shiftl 2 20))
        (Z.shiftl 0 24) = Z.lor regno 0x00230000.
Proof.
  change (Z.shiftl 0 24) with 0. rewrite Z.lor_0_r, <- !Z.lor_assoc. reflexivity.
Qed.

Lemma read_command_value (regno : Z) :
  Z.lor (Z.lor (Z.lor (Z.lor regno (Z.shiftl 0 16)) (Z.shiftl 1 17)) (Z.shiftl 2 20))
        (Z.shiftl 0 24) = Z.lor regno 0x00220000.
Proof.
  change (Z.shiftl 0 24) with 0. change (Z.shiftl 0 16) with 0.
  rewrite !Z.lor_0_r, <- !Z.lor_assoc. reflexivity.
Qed.

Lemma ch32_write_cpu_reg_total (regno value : Z) :
  total (ch32_write_cpu_reg hw regno value)
        (fun r evs => r = true /\ evs = write_cpu_reg_events regno value).
Proof.
  unfold ch32_write_cpu_reg.
  tstep do_write_total. subst.
  tstep do_write_total. subst.
  apply total_ret. split; [reflexivity|].
  unfold write_cpu_reg_events. rewrite write_command_value. reflexivity.
Qed.

Lemma ch32_read_cpu_reg_total (regno : Z) :
  total (ch32_read_cpu_reg hw regno)
        (fun r evs => fst r = true /\ evs = read_cpu_reg_events regno (snd r)
                      /\ 0 <= snd r < 2 ^ 32).
Proof.
  unfold ch32_read_cpu_reg.
  tstep do_write_total. subst.
  tstep do_read_total. destruct H as (-> & Hr & _).
  apply total_ret. simpl. repeat split; try apply Hr.
  unfold read_cpu_reg_events. rewrite read_command_value. reflexivity.
Qed.

End Primitives.

(** ** Loops *)

Section Loops.

Context {D : Type}.

Lemma for_each_total (indices : list nat) (body : nat -> M D unit)
    (P : nat -> list event -> Prop) :
  (forall i, total (body i) (fun _ evs => P i evs)) ->
  total (for_each indices body)
        (fun _ evs => exists ess, Forall2 P indices ess /\ evs = concat ess).
Proof.
  intros Hbody. induction indices as [|i rest IH]; simpl.
  - apply total_ret. exists []. split; [constructor | reflexivity].
  - tstep Hbody. eapply total_weaken; [apply IH|].
    intros _ e2 (ess & HF & ->). exists (e1 :: ess). split.
    + constructor; assumption.
    + reflexivity.
Qed.

Lemma for_each_emits (indices : list nat) (body : nat -> M D unit)
    (P : nat -> list event -> Prop) :
  (forall i, emits (body i) (fun _ evs => P i evs)) ->
  emits (for_each indices body)
        (fun _ evs => exists ess, Forall2 P indices ess /\ evs = concat ess).
Proof.
  intros Hbody. induction indices as [|i rest IH]; simpl.
  - apply emits_ret. exists []. split; [constructor | reflexivity].
  - estep Hbody. eapply emits_weaken; [apply IH|].
    intros _ e2 (ess & HF & ->). exists (e1 :: ess). split.
    + constructor; assumption.
    + reflexivity.
Qed.

(** When every turn's events are a function of the index, so is the whole. *)
Lemma Forall2_eq_map (E : nat -> list event) (indices : list nat) ess :
  Forall2 (fun i evs => evs = E i) indices ess -> ess = map E indices.
Proof.
  induction 1; simpl; congruence.
Qed.

Lemma for_collect_emits (indices : list nat) (body : nat -> M D Z)
    (E : nat -> Z -> list event) (R : Z -> Prop) :
  (forall i, emits (body i) (fun v evs => evs = E i v /\ R v)) ->
  emits (for_collect indices body)
        (fun vs evs => length vs = length indices /\ Forall R vs /\
           evs = concat (map (fun iv => E (fst iv) (snd iv)) (combine indices vs))).
Proof.
  intros Hbody. induction indices as [|i rest IH]; simpl.
  - apply emits_ret. repeat split; auto.
  - estep Hbody. destruct H as [-> HR].
    estep IH. destruct H as (Hlen & HF & ->).
    apply emits_ret. simpl. rewrite app_nil_r. repeat split; auto.
Qed.

Lemma for_collect_total (indices : list nat) (body : nat -> M D Z)
    (E : nat -> Z -> list event) (R : Z -> Prop) :
  (forall i, total (body i) (fun v evs => evs = E i v /\ R v)) ->
  total (for_collect indices body)
        (fun vs evs => length vs = length indices /\ Forall R vs /\
           evs = concat (map (fun iv => E (fst iv) (snd iv)) (combine indices vs))).
Proof.
  intros Hbody. induction indices as [|i rest IH]; simpl.
  - apply total_ret. repeat split; auto.
  - tstep Hbody. destruct H as [-> HR].
    tstep IH. destruct H as (Hlen & HF & ->).
    apply total_ret. simpl. rewrite app_nil_r. repeat split; auto.
Qed.

End Loops.

(** ** Bytes and words *)

Lemma byte_val_range (b : Byte.byte) : 0 <= byte_val b < 2 ^ 8.
Proof.
  unfold byte_val. pose proof (Byte.to_N_bounded b). change (2 ^ 8) with 256. lia.
Qed.

Lemma load_bytes_length (p : buffer) (n : nat) : length (load_bytes p n) = n.
Proof. unfold load_bytes. rewrite length_map, length_seq. reflexivity. Qed.

Lemma load_bytes_nth (p : buffer) (n k : nat) :
  (k < n)%nat -> nth k (load_bytes p n) 0 = byte_val (p (Z.of_nat k)).
Proof.
  intros Hk. unfold load_bytes.
  rewrite (nth_indep _ 0 (byte_val (p (Z.of_nat 0)))) by (rewrite length_map, length_seq; lia).
  rewrite (map_nth (fun k => byte_val (p (Z.of_nat k)))).
  rewrite seq_nth by lia. reflexivity.
Qed.

Lemma load_bytes_range (p : buffer) (n : nat) :
  Forall (fun b => 0 <= b < 2 ^ 8) (load_bytes p n).
Proof.
  unfold load_bytes. apply Forall_forall. intros b Hb.
  apply in_map_iff in Hb. destruct Hb as (k & <- & _). apply byte_val_range.
Qed.

Lemma debug_code_image_nth (code : buffer) (code_size : Z) (k : nat) :
  nth k (debug_code_image code code_size) 0 = zero_padded code code_size (Z.of_nat k).
Proof.
  unfold debug_code_image, zero_padded.
  destruct (Z.ltb_spec (Z.of_nat k) code_size) as [Hlt|Hge].
  - rewrite app_nth1 by (rewrite load_bytes_length; lia).
    apply load_bytes_nth. lia.
  - rewrite app_nth2 by (rewrite load_bytes_length; lia).
    apply nth_repeat.
Qed.

Lemma debug_code_image_word (code : buffer) (code_size : Z) (i : nat) :
  word_at (debug_code_image code code_size) i = progbuf_word code code_size i.
Proof.
  unfold word_at, progbuf_word. rewrite !debug_code_image_nth.
  repeat f_equal; lia.
Qed.

Lemma land_1_odd (z : Z) : negb (Z.land z 1 =? 0) = Z.odd z.
Proof.
  change 1 with (Z.ones 1). rewrite Z.land_ones by lia.
  change (2 ^ 1) with 2. rewrite Zmod_odd. destruct (Z.odd z); reflexivity.
Qed.

Section AbstractCommands.

Context {D : Type} (hw : rvswd_transport D).

Lemma progbuf_writes_total (tmp : list Z) :
  total (for_each (seq 0 8) (fun i =>
           do_write hw (CH32_REG_DEBUG_PROGBUF0 + Z.of_nat i) (word_at tmp i) ;; ret tt))
        (fun _ evs =>
           evs = map (fun i => EvWrite (0x20 + Z.of_nat i) (word_at tmp i)) (seq 0 8)).
Proof.
  eapply total_weaken.
  - apply for_each_total with
      (P := fun i evs => evs = [EvWrite (0x20 + Z.of_nat i) (word_at tmp i)]).
    intros i. tstep do_write_total. subst. apply total_ret. reflexivity.
  - intros _ evs (ess & HF & ->).
    apply Forall2_eq_map with
      (E := fun i => [EvWrite (0x20 + Z.of_nat i) (word_at tmp i)]) in HF.
    subst. reflexivity.
Qed.

Lemma ch32_run_debug_code_total (code : buffer) (code_size : Z) :
  total (ch32_run_debug_code hw code code_size)
        (fun r evs =>
           if (32 <? code_size) || Z.odd code_size
           then r = false /\ exists m, evs = [EvLog m]
           else r = true /\
                evs = run_debug_code_events (map (progbuf_word code code_size) (seq 0 8))).
Proof.
  unfold ch32_run_debug_code. change (8 * 4) with 32.
  rewrite Z.gtb_ltb, land_1_odd.
  destruct (32 <? code_size); simpl orb.
  - tstep total_emit. subst. apply total_ret. split; [reflexivity | eexists; reflexivity].
  - destruct (Z.odd code_size).
    + tstep total_emit. subst. apply total_ret. split; [reflexivity | eexists; reflexivity].
    + tstep progbuf_writes_total. subst.
      tstep do_write_total. subst.
      apply total_ret. split; [reflexivity|].
      rewrite app_nil_r. unfold run_debug_code_events. f_equal.
      simpl. rewrite !debug_code_image_word. reflexivity.
Qed.

Lemma run_readmem_total :
  total (ch32_run_debug_code hw (buffer_of ch32_readmem) 4)
        (fun r evs => r = true /\ evs = run_debug_code_events readmem_words).
Proof.
  eapply total_weaken; [apply ch32_run_debug_code_total|].
  cbv beta. intros r evs H. exact H.
Qed.

Lemma run_writemem_total :
  total (ch32_run_debug_code hw (buffer_of ch32_writemem) 4)
        (fun r evs => r = true /\ evs = run_debug_code_events writemem_words).
Proof.
  eapply total_weaken; [apply ch32_run_debug_code_total|].
  cbv beta. intros r evs H. exact H.
Qed.

Lemma ch32_read_memory_word_total (address : Z) :
  total (ch32_read_memory_word hw address)
        (fun r evs => fst r = true /\ evs = read_memory_word_events address (snd r)
                      /\ 0 <= snd r < 2 ^ 32).
Proof.
  unfold ch32_read_memory_word.
  tstep ch32_write_cpu_reg_total. destruct H as [_ ->].
  tstep run_readmem_total. destruct H as [_ ->].
  tstep ch32_read_cpu_reg_total. destruct H as (_ & -> & Hr).
  apply total_ret. simpl fst; simpl snd.
  split; [reflexivity | split; [|exact Hr]].
  rewrite app_nil_r. reflexivity.
Qed.

Lemma ch32_write_memory_word_total (address value : Z) :
  total (ch32_write_memory_word hw address value)
        (fun r evs => r = true /\ evs = write_memory_word_events address value).
Proof.
  unfold ch32_write_memory_word.
  tstep ch32_write_cpu_reg_total. destruct H as [_ ->].
  tstep ch32_write_cpu_reg_total. destruct H as [_ ->].
  tstep run_writemem_total. destruct H as [_ ->].
  apply total_ret. split; [reflexivity|].
  rewrite app_nil_r. reflexivity.
Qed.

End AbstractCommands.

(** ** Abstract commands and memory bridge: results *)

(** C9: the register and memory-word operations return [true] from every
    state of every transport, whatever the transport's own calls returned. *)
Theorem bridge_results_always_true {D} (hw : rvswd_transport D)
    (regno address value : Z) (w : world D) :
  (exists w', ch32_write_cpu_reg hw regno value w = Some (true, w')) /\
  (exists v w', ch32_read_cpu_reg hw regno w = Some ((true, v), w')) /\
  (exists v w', ch32_read_memory_word hw address w = Some ((true, v), w')) /\
  (exists w', ch32_write_memory_word hw address value w = Some (true, w')).
Proof.
  repeat split.
  - destruct (ch32_write_cpu_reg_total hw regno value w)
      as (r & w' & evs & E & _ & -> & _). eauto.
  - destruct (ch32_read_cpu_reg_total hw regno w)
      as ([r v] & w' & evs & E & _ & Hr & _). simpl in Hr. subst. eauto.
  - destruct (ch32_read_memory_word_total hw address w)
      as ([r v] & w' & evs & E & _ & Hr & _). simpl in Hr. subst. eauto.
  - destruct (ch32_write_memory_word_total hw address value w)
      as (r & w' & evs & E & _ & -> & _). eauto.
Qed.

(** On a link where every transport call fails, a memory read still
    reports success. *)
Example read_memory_word_on_dead_link :
  option_map fst (ch32_read_memory_word dead_link 0x4002200C (power_on tt))
  = Some (true, 0).
Proof. reflexivity. Qed.

(** ** Debug code *)

(** C6: code longer than 32 bytes or of odd size is refused with nothing
    but a log line; any other code is zero-padded to 32 bytes and written as
    eight words to the program-buffer registers 0x20..0x27 in order, followed
    by one command write whose value has the transfer bit (17) clear, the
    postexec bit (18) set, size field (22:20) 2 and command type (31:24) 0. *)
Theorem ch32_run_debug_code_spec {D} (hw : rvswd_transport D)
    (code : buffer) (code_size : Z) (w : world D) :
  exists r w' evs,
    ch32_run_debug_code hw code code_size w = Some (r, w') /\
    trace w' = trace w ++ evs /\
    (if (32 <? code_size) || Z.odd code_size
     then r = false /\ filter is_hw evs = []
     else r = true /\
          evs = map (fun i => EvWrite (0x20 + Z.of_nat i) (progbuf_word code code_size i))
                    (seq 0 8)
                ++ [EvWrite 0x17 0x00240000]) /\
    Z.testbit 0x00240000 17 = false /\
    Z.testbit 0x00240000 18 = true /\
    Z.land (Z.shiftr 0x00240000 20) 7 = 2 /\
    Z.shiftr 0x00240000 24 = 0.
Proof.
  destruct (ch32_run_debug_code_total hw code code_size w)
    as (r & w' & evs & E & Et & H).
  exists r, w', evs. repeat split; auto.
  destruct ((32 <? code_size) || Z.odd code_size).
  - destruct H as (-> & m & ->). auto.
  - destruct H as (-> & ->). split; [reflexivity|]. reflexivity.
Qed.

(** A two-byte snippet: one compressed instruction, fourteen bytes short of
    a full first word and padded with zeros. *)
Example run_debug_code_two_bytes :
  option_map (fun rw => (fst rw, trace (snd rw)))
    (ch32_run_debug_code (const_target 0) (buffer_of [Byte.x02; Byte.x90]) 2 (power_on tt))
  = Some (true,
          [EvWrite 0x20 0x9002; EvWrite 0x21 0; EvWrite 0x22 0; EvWrite 0x23 0;
           EvWrite 0x24 0; EvWrite 0x25 0; EvWrite 0x26 0; EvWrite 0x27 0;
           EvWrite 0x17 0x00240000]).
Proof. reflexivity. Qed.

Example run_debug_code_too_long :
  option_map (fun rw => (fst rw, trace (snd rw)))
    (ch32_run_debug_code (const_target 0) zeros 34 (power_on tt))
  = Some (false, [EvLog (LogProgramTooLong 34)]).
Proof. reflexivity. Qed.

Example run_debug_code_odd :
  option_map (fun rw => (fst rw, trace (snd rw)))
    (ch32_run_debug_code (const_target 0) zeros 3 (power_on tt))
  = Some (false, [EvLog (LogProgramMisaligned 3)]).
Proof. reflexivity. Qed.

(** ** Unlock *)

Section Unlock.

Context {D : Type} (hw : rvswd_transport D).

Lemma ch32_unlock_flash_total :
  total (ch32_unlock_flash hw)
        (fun r evs => exists ctlr0 ctlr,
           r = (Z.land ctlr 0x8080 =? 0) /\
           evs = read_memory_word_events 0x40022010 ctlr0
                 ++ [EvLog (LogCtlrBeforeUnlock ctlr0)]
                 ++ unlock_key_events
                 ++ read_memory_word_events 0x40022010 ctlr
                 ++ [EvLog (LogCtlrAfterUnlock ctlr)]).
Proof.
  unfold ch32_unlock_flash.
  tstep ch32_read_memory_word_total. destruct H as (_ & -> & _).
  tstep total_emit. subst.
  do 6 (tstep ch32_write_memory_word_total; destruct H as [_ ->]).
  tstep ch32_read_memory_word_total. destruct H as (_ & -> & _).
  tstep total_emit. subst.
  apply total_ret. exists (snd a), (snd a7). split; [reflexivity|].
  reflexivity.
Qed.

End Unlock.

(** C4: the unlock reads the control register, performs the six key writes
    (the pair 0x45670123, 0xCDEF89AB to 0x40022004, 0x40022008 and
    0x40022024) whatever that first read returned, reads the control register
    again and returns [true] exactly when the bits of mask 0x8080 are clear
    in the value of the second read. *)
Theorem ch32_unlock_flash_spec {D} (hw : rvswd_transport D) (w : world D) :
  exists ctlr0 ctlr w',
    ch32_unlock_flash hw w = Some (Z.land ctlr 0x8080 =? 0, w') /\
    trace w' = trace w
               ++ read_memory_word_events 0x40022010 ctlr0
               ++ [EvLog (LogCtlrBeforeUnlock ctlr0)]
               ++ flat_map (fun av => write_memory_word_events (fst av) (snd av))
                    [ (0x40022004, 0x45670123); (0x40022004, 0xCDEF89AB);
                      (0x40022008, 0x45670123); (0x40022008, 0xCDEF89AB);
                      (0x40022024, 0x45670123); (0x40022024, 0xCDEF89AB) ]
               ++ read_memory_word_events 0x40022010 ctlr
               ++ [EvLog (LogCtlrAfterUnlock ctlr)].
Proof.
  destruct (ch32_unlock_flash_total hw w) as (r & w' & evs & E & Et & ctlr0 & ctlr & -> & ->).
  exists ctlr0, ctlr, w'. split; assumption.
Qed.

(** An unlocked controller (control register reads 0) is sent the keys all
    the same; a controller that stays locked makes the unlock fail. *)
Example unlock_already_unlocked :
  option_map (fun rw => (fst rw, length (filter is_write (trace (snd rw)))))
    (ch32_unlock_flash (const_target 0) (power_on tt))
  = Some (true, 102%nat).
Proof. reflexivity. Qed.

Example unlock_stays_locked :
  option_map fst (ch32_unlock_flash (const_target 0x80) (power_on tt)) = Some false.
Proof. reflexivity. Qed.

(** ** Block alignment *)

Lemma erase_misaligned {D} (hw : rvswd_transport D) (fuel : nat) (addr : Z) (w : world D) :
  addr mod 256 <> 0 -> ch32_erase_flash_block hw fuel addr w = Some (false, w).
Proof.
  intros Hmis. apply Z.eqb_neq in Hmis.
  unfold ch32_erase_flash_block. rewrite Hmis. reflexivity.
Qed.

Lemma program_misaligned {D} (hw : rvswd_transport D) (fuel : nat) (addr : Z)
    (data : buffer) (w : world D) :
  addr mod 256 <> 0 -> ch32_write_flash_block hw fuel addr data w = Some (false, w).
Proof.
  intros Hmis. apply Z.eqb_neq in Hmis.
  unfold ch32_write_flash_block. rewrite Hmis. reflexivity.
Qed.

(** C7: for an address that is not a multiple of 256 the block erase and the
    block program return [false] at once: the world, trace included, is the
    one they were called in. *)
Theorem misaligned_block_rejected {D} (hw : rvswd_transport D)
    (fuel : nat) (addr : Z) (data : buffer) (w : world D) :
  addr mod 256 <> 0 ->
  ch32_erase_flash_block hw fuel addr w = Some (false, w) /\
  ch32_write_flash_block hw fuel addr data w = Some (false, w).
Proof.
  intros Hmis. split.
  - apply erase_misaligned. assumption.
  - apply program_misaligned. assumption.
Qed.

Lemma misaligned_block_rejected_witness :
  0x08000040 mod 256 <> 0 /\
  ch32_erase_flash_block (const_target 0) 0 0x08000040 (power_on tt)
    = Some (false, power_on tt) /\
  ch32_write_flash_block (const_target 0) 0 0x08000040 zeros (power_on tt)
    = Some (false, power_on tt).
Proof.
  assert (H : 0x08000040 mod 256 <> 0) by (vm_compute; discriminate).
  split; [exact H|].
  exact (misaligned_block_rejected (const_target 0) 0 0x08000040 zeros (power_on tt) H).
Defined.

(** ** CPU control *)

Lemma poll_events_cons (v : Z) (rest : list Z) :
  rest <> [] -> poll_events (v :: rest) = EvRead 0x11 v :: EvDelayMs 10 :: poll_events rest.
Proof. destruct rest; [congruence | reflexivity]. Qed.

Lemma count_polls_poll_events (vs : list Z) :
  count_polls (poll_events vs) = length vs.
Proof.
  unfold count_polls. induction vs as [|v [|v' rest] IH]; try reflexivity.
  rewrite poll_events_cons by discriminate. simpl filter. simpl length.
  simpl length in IH. rewrite IH. reflexivity.
Qed.

Lemma poll_events_delays (vs : list Z) :
  length (filter (fun e => match e with EvDelayMs _ => true | _ => false end)
                 (poll_events vs)) = Nat.pred (length vs).
Proof.
  induction vs as [|v [|v' rest] IH]; try reflexivity.
  rewrite poll_events_cons by discriminate. simpl filter. simpl length.
  simpl length in IH. rewrite IH. reflexivity.
Qed.

Lemma poll_events_hw_only_reads (vs : list Z) :
  filter is_write (poll_events vs) = [].
Proof.
  induction vs as [|v [|v' rest] IH]; try reflexivity.
  rewrite poll_events_cons by discriminate. simpl filter. exact IH.
Qed.

Section CpuControl.

Context {D : Type} (hw : rvswd_transport D).

(** The polling loop reads until a value is reached or the retries are
    used up: [vs] are the values that were not what was waited for, [v] is
    the last value read. *)
Lemma poll_dmstatus_total (reached : Z -> bool) (on_timeout : Z -> M D unit)
    (E : Z -> list event) (timeout : nat) :
  (forall v, total (on_timeout v) (fun _ evs => evs = E v)) ->
  total (poll_dmstatus hw reached on_timeout timeout)
        (fun ok evs => exists vs v,
           Forall (fun x => reached x = false) vs /\
           Forall (readable hw 0x11) (vs ++ [v]) /\
           reached v = ok /\
           (length vs <= timeout)%nat /\
           (ok = false -> length vs = timeout) /\
           evs = poll_events (vs ++ [v]) ++ (if ok then [] else E v)).
Proof.
  intros Hto. induction timeout as [|timeout IH]; simpl poll_dmstatus.
  - tstep do_read_total. destruct H as (-> & _ & Hrd).
    destruct (reached (snd a)) eqn:Hr.
    + apply total_ret. exists [], (snd a). simpl.
      repeat split; auto; discriminate.
    + tstep Hto. subst. apply total_ret. exists [], (snd a).
      simpl. rewrite app_nil_r. repeat split; auto.
  - tstep do_read_total. destruct H as (-> & _ & Hrd).
    destruct (reached (snd a)) eqn:Hr.
    + apply total_ret. exists [], (snd a). simpl.
      repeat split; auto; try lia; discriminate.
    + tstep total_emit. subst.
      eapply total_weaken; [apply IH|]. cbv beta.
      intros ok evs (vs & v & Hvs & Hrds & Hv & Hlen & Hfull & ->).
      exists (snd a :: vs), v. repeat split; auto.
      * simpl. constructor; assumption.
      * simpl. lia.
      * intros Hok. simpl. rewrite Hfull by assumption. reflexivity.
      * change ((snd a :: vs) ++ [v]) with (snd a :: (vs ++ [v])).
        rewrite poll_events_cons by (destruct vs; discriminate).
        reflexivity.
Qed.

Lemma ch32_halt_microprocessor_total :
  total (ch32_halt_microprocessor hw)
        (fun r evs => exists vs v,
           let halted := Z.land (Z.shiftr v 8) 3 =? 3 in
           Forall (fun x => (Z.land (Z.shiftr x 8) 3 =? 3) = false) vs /\
           Forall (readable hw 0x11) (vs ++ [v]) /\
           (length vs <= 5)%nat /\
           (halted = false -> length vs = 5%nat) /\
           r = (if halted then RVSWD_OK hw else 0) /\
           evs = dmcontrol_writes [0x80000001; 0x80000001]
                 ++ poll_events (vs ++ [v])
                 ++ (if halted then [EvWrite 0x10 0x00000001; EvLog LogHalted]
                     else [EvLog (LogHaltFailed v)])).
Proof.
  unfold ch32_halt_microprocessor.
  do 2 (tstep do_write_total; subst).
  tstep (poll_dmstatus_total _ _ (fun v => [EvLog (LogHaltFailed v)])).
  { intros v. apply total_emit. }
  destruct H as (vs & v & Hvs & Hrds & Hv & Hlen & Hfull & ->).
  destruct a1.
  - tstep do_write_total. subst. tstep total_emit. subst.
    apply total_ret. exists vs, v. cbv zeta. rewrite Hv.
    repeat split; auto. rewrite ?app_nil_r, <- ?app_assoc. reflexivity.
  - apply total_ret. exists vs, v. cbv zeta. rewrite Hv.
    repeat split; auto. rewrite ?app_nil_r. reflexivity.
Qed.

Lemma ch32_resume_microprocessor_total :
  total (ch32_resume_microprocessor hw)
        (fun r evs => exists vs v,
           let resumed := Z.land (Z.shiftr v 10) 3 =? 3 in
           Forall (fun x => (Z.land (Z.shiftr x 10) 3 =? 3) = false) vs /\
           Forall (readable hw 0x11) (vs ++ [v]) /\
           (length vs <= 5)%nat /\
           (resumed = false -> length vs = 5%nat) /\
           r = (if resumed then RVSWD_OK hw else RVSWD_FAIL hw) /\
           evs = dmcontrol_writes [0x80000001; 0x80000001; 0x00000001; 0x40000001]
                 ++ poll_events (vs ++ [v])
                 ++ (if resumed then [] else [EvLog (LogResumeFailed v)])).
Proof.
  unfold ch32_resume_microprocessor.
  do 4 (tstep do_write_total; subst).
  tstep (poll_dmstatus_total _ _ (fun v => [EvLog (LogResumeFailed v)])).
  { intros v. apply total_emit. }
  destruct H as (vs & v & Hvs & Hrds & Hv & Hlen & Hfull & ->).
  destruct a3; apply total_ret; exists vs, v; cbv zeta; rewrite Hv;
    repeat split; auto; rewrite ?app_nil_r; reflexivity.
Qed.

Lemma ch32_reset_microprocessor_and_run_total :
  total (ch32_reset_microprocessor_and_run hw)
        (fun r evs => exists vs v,
           let was_reset := Z.land (Z.shiftr v 18) 3 =? 3 in
           Forall (fun x => (Z.land (Z.shiftr x 18) 3 =? 3) = false) vs /\
           Forall (readable hw 0x11) (vs ++ [v]) /\
           (length vs <= 5)%nat /\
           (was_reset = false -> length vs = 5%nat) /\
           r = (if was_reset then RVSWD_OK hw else RVSWD_FAIL hw) /\
           evs = dmcontrol_writes [0x80000001; 0x80000001; 0x00000001; 0x00000003]
                 ++ poll_events (vs ++ [v])
                 ++ (if was_reset
                     then [EvWrite 0x10 0x00000001; EvDelayMs 10;
                           EvWrite 0x10 0x10000001; EvDelayMs 10;
                           EvWrite 0x10 0x00000001; EvDelayMs 10]
                     else [EvLog LogResetFailed])).
Proof.
  unfold ch32_reset_microprocessor_and_run.
  do 4 (tstep do_write_total; subst).
  tstep (poll_dmstatus_total _ _ (fun _ => [EvLog LogResetFailed])).
  { intros v. apply total_emit. }
  destruct H as (vs & v & Hvs & Hrds & Hv & Hlen & Hfull & ->).
  destruct a3.
  - do 3 (tstep do_write_total; subst; tstep total_emit; subst).
    apply total_ret. exists vs, v. cbv zeta. rewrite Hv.
    repeat split; auto. rewrite ?app_nil_r, <- ?app_assoc. reflexivity.
  - apply total_ret. exists vs, v. cbv zeta. rewrite Hv.
    repeat split; auto. rewrite ?app_nil_r. reflexivity.
Qed.

End CpuControl.

(** C1: the resume operation tests bits [11:10] of the status value, not
    bits [17:16].  A status register that always reads 0x00030000 (bits
    [17:16] = 0b11) makes the resume time out, and one that always reads
    0x00000C00 (bits [17:16] = 0b00) makes it succeed at the first poll. *)
Theorem resume_tests_bits_11_10 :
  Z.land (Z.shiftr 0x00030000 16) 3 = 3 /\
  option_map (fun rw => (fst rw, count_polls (trace (snd rw))))
    (ch32_resume_microprocessor (const_target 0x00030000) (power_on tt))
  = Some (RVSWD_FAIL (const_target 0x00030000), 6%nat) /\
  Z.land (Z.shiftr 0x00000C00 16) 3 = 0 /\
  option_map (fun rw => (fst rw, count_polls (trace (snd rw))))
    (ch32_resume_microprocessor (const_target 0x00000C00) (power_on tt))
  = Some (RVSWD_OK (const_target 0x00000C00), 1%nat).
Proof. repeat split. Qed.

(** What the resume does decide on: it returns [RVSWD_OK] exactly when the
    last value it polled has bits [11:10] = 0b11. *)
Lemma resume_result {D} (hw : rvswd_transport D) (w : world D) :
  exists vs v w',
    ch32_resume_microprocessor hw w
    = Some (if Z.land (Z.shiftr v 10) 3 =? 3 then RVSWD_OK hw else RVSWD_FAIL hw, w') /\
    (length vs <= 5)%nat /\
    trace w' = trace w
               ++ dmcontrol_writes [0x80000001; 0x80000001; 0x00000001; 0x40000001]
               ++ poll_events (vs ++ [v])
               ++ (if Z.land (Z.shiftr v 10) 3 =? 3 then [] else [EvLog (LogResumeFailed v)]).
Proof.
  destruct (ch32_resume_microprocessor_total hw w)
    as (r & w' & evs & E & Et & vs & v & _ & _ & Hlen & _ & -> & ->).
  exists vs, v, w'. auto.
Qed.

Lemma never_reached {D} (hw : rvswd_transport D) (shift : Z) (vs : list Z) (v : Z) :
  status_never hw shift ->
  Forall (readable hw 0x11) (vs ++ [v]) ->
  (Z.land (Z.shiftr v shift) 3 =? 3) = false.
Proof.
  intros Hnever Hrd. apply Z.eqb_neq, Hnever.
  apply Forall_app in Hrd. destruct Hrd as [_ Hv]. inversion Hv. assumption.
Qed.

Lemma count_polls_app (a b : list event) :
  count_polls (a ++ b) = (count_polls a + count_polls b)%nat.
Proof. unfold count_polls. rewrite filter_app, length_app. reflexivity. Qed.

Lemma count_polls_dmcontrol_writes (values : list Z) :
  count_polls (dmcontrol_writes values) = 0%nat.
Proof. induction values; [reflexivity | assumption]. Qed.

(** The polls of a run that wrote [values] to the control register, polled
    the six values [vs] and logged. *)
Lemma count_polls_timeout (t : list event) (values vs : list Z) (m : log_msg) :
  length vs = 6%nat ->
  count_polls (t ++ dmcontrol_writes values ++ poll_events vs ++ [EvLog m])
  = (count_polls t + 6)%nat.
Proof.
  intros Hlen.
  rewrite !count_polls_app, count_polls_dmcontrol_writes, count_polls_poll_events, Hlen.
  change (count_polls [EvLog m]) with 0%nat. lia.
Qed.

(** C2 (as the code has it): when the status register never shows the
    awaited pair of bits, halt, resume and reset-and-run each give up after
    exactly six reads of the status register, the first poll and five
    retries 10 ms apart, and touch the transport no more; resume and
    reset-and-run return [RVSWD_FAIL]. *)
Theorem timeout_after_six_polls {D} (hw : rvswd_transport D) (w : world D) :
  (status_never hw 8 ->
   exists vs r w',
     ch32_halt_microprocessor hw w = Some (r, w') /\
     length vs = 6%nat /\
     trace w' = trace w ++ dmcontrol_writes [0x80000001; 0x80000001]
                ++ poll_events vs ++ [EvLog (LogHaltFailed (last vs 0))] /\
     count_polls (trace w') = (count_polls (trace w) + 6)%nat) /\
  (status_never hw 10 ->
   exists vs w',
     ch32_resume_microprocessor hw w = Some (RVSWD_FAIL hw, w') /\
     length vs = 6%nat /\
     trace w' = trace w
                ++ dmcontrol_writes [0x80000001; 0x80000001; 0x00000001; 0x40000001]
                ++ poll_events vs ++ [EvLog (LogResumeFailed (last vs 0))] /\
     count_polls (trace w') = (count_polls (trace w) + 6)%nat) /\
  (status_never hw 18 ->
   exists vs w',
     ch32_reset_microprocessor_and_run hw w = Some (RVSWD_FAIL hw, w') /\
     length vs = 6%nat /\
     trace w' = trace w
                ++ dmcontrol_writes [0x80000001; 0x80000001; 0x00000001; 0x00000003]
                ++ poll_events vs ++ [EvLog LogResetFailed] /\
     count_polls (trace w') = (count_polls (trace w) + 6)%nat).
Proof.
  split; [|split].
  - intros Hnever.
    destruct (ch32_halt_microprocessor_total hw w)
      as (r & w' & evs & E & Et & vs & v & _ & Hrd & _ & Hfull & -> & ->).
    cbv zeta in Hfull. rewrite (never_reached hw 8 vs v Hnever Hrd) in *.
    assert (Hlen : length (vs ++ [v]) = 6%nat)
      by (rewrite length_app, Hfull by reflexivity; reflexivity).
    exists (vs ++ [v]), 0, w'. rewrite last_last.
    repeat split; auto. rewrite Et. apply count_polls_timeout. assumption.
  - intros Hnever.
    destruct (ch32_resume_microprocessor_total hw w)
      as (r & w' & evs & E & Et & vs & v & _ & Hrd & _ & Hfull & -> & ->).
    cbv zeta in Hfull. rewrite (never_reached hw 10 vs v Hnever Hrd) in *.
    assert (Hlen : length (vs ++ [v]) = 6%nat)
      by (rewrite length_app, Hfull by reflexivity; reflexivity).
    exists (vs ++ [v]), w'. rewrite last_last.
    repeat split; auto. rewrite Et. apply count_polls_timeout. assumption.
  - intros Hnever.
    destruct (ch32_reset_microprocessor_and_run_total hw w)
      as (r & w' & evs & E & Et & vs & v & _ & Hrd & _ & Hfull & -> & ->).
    cbv zeta in Hfull. rewrite (never_reached hw 18 vs v Hnever Hrd) in *.
    assert (Hlen : length (vs ++ [v]) = 6%nat)
      by (rewrite length_app, Hfull by reflexivity; reflexivity).
    exists (vs ++ [v]), w'.
    repeat split; auto. rewrite Et. apply count_polls_timeout. assumption.
Qed.

Lemma const_target_never (shift : Z) :
  Z.land (Z.shiftr 0 shift) 3 <> 3 -> status_never (const_target 0) shift.
Proof. intros H v [d <-]. exact H. Qed.

Lemma timeout_after_six_polls_witness :
  (status_never (const_target 0) 8 /\
   status_never (const_target 0) 10 /\
   status_never (const_target 0) 18) /\
  (exists vs r w',
     ch32_halt_microprocessor (const_target 0) (power_on tt) = Some (r, w') /\
     length vs = 6%nat /\
     trace w' = trace (power_on tt) ++ dmcontrol_writes [0x80000001; 0x80000001]
                ++ poll_events vs ++ [EvLog (LogHaltFailed (last vs 0))] /\
     count_polls (trace w') = (count_polls (trace (power_on tt)) + 6)%nat) /\
  (exists vs w',
     ch32_resume_microprocessor (const_target 0) (power_on tt)
     = Some (RVSWD_FAIL (const_target 0), w') /\
     length vs = 6%nat /\
     trace w' = trace (power_on tt)
                ++ dmcontrol_writes [0x80000001; 0x80000001; 0x00000001; 0x40000001]
                ++ poll_events vs ++ [EvLog (LogResumeFailed (last vs 0))] /\
     count_polls (trace w') = (count_polls (trace (power_on tt)) + 6)%nat) /\
  (exists vs w',
     ch32_reset_microprocessor_and_run (const_target 0) (power_on tt)
     = Some (RVSWD_FAIL (const_target 0), w') /\
     length vs = 6%nat /\
     trace w' = trace (power_on tt)
                ++ dmcontrol_writes [0x80000001; 0x80000001; 0x00000001; 0x00000003]
                ++ poll_events vs ++ [EvLog LogResetFailed] /\
     count_polls (trace w') = (count_polls (trace (power_on tt)) + 6)%nat).
Proof.
  assert (H8 : status_never (const_target 0) 8)
    by (apply const_target_never; vm_compute; discriminate).
  assert (H10 : status_never (const_target 0) 10)
    by (apply const_target_never; vm_compute; discriminate).
  assert (H18 : status_never (const_target 0) 18)
    by (apply const_target_never; vm_compute; discriminate).
  destruct (timeout_after_six_polls (const_target 0) (power_on tt))
    as (Hhalt & Hresume & Hreset).
  split; [auto|]. split; [exact (Hhalt H8)|]. split; [exact (Hresume H10)|].
  exact (Hreset H18).
Defined.

(** C2 as claimed does not hold: on a target whose status register always
    reads 0 each of the three operations polls six times, not five, and the
    halt hands back the value of [RVSWD_OK]. *)
Lemma timeout_after_five_polls_refuted :
  let polls (m : M unit Z) :=
    option_map (fun rw => count_polls (trace (snd rw))) (m (power_on tt)) in
  polls (ch32_halt_microprocessor (const_target 0)) = Some 6%nat /\
  polls (ch32_resume_microprocessor (const_target 0)) = Some 6%nat /\
  polls (ch32_reset_microprocessor_and_run (const_target 0)) = Some 6%nat /\
  polls (ch32_resume_microprocessor (const_target 0)) <> Some 5%nat /\
  option_map fst (ch32_halt_microprocessor (const_target 0) (power_on tt))
  = Some (RVSWD_OK (const_target 0)).
Proof. cbv zeta. repeat split. discriminate. Qed.

(** ** Comparing what was written with what was read *)

Lemma memcmp_differs_false (a b : list Z) : memcmp_differs a b = false <-> a = b.
Proof.
  revert b. induction a as [|x a IH]; intros [|y b]; simpl; split; intros H;
    try reflexivity; try discriminate.
  - destruct (Z.eqb_spec x y); [|discriminate]. subst. f_equal. apply IH. assumption.
  - injection H as -> ->. rewrite Z.eqb_refl. apply IH. reflexivity.
Qed.

Lemma word_bytes_join (w : Z) :
  0 <= w < 2 ^ 32 ->
  w mod 2 ^ 8 + 2 ^ 8 * ((w / 2 ^ 8) mod 2 ^ 8) + 2 ^ 16 * ((w / 2 ^ 16) mod 2 ^ 8)
  + 2 ^ 24 * ((w / 2 ^ 24) mod 2 ^ 8) = w.
Proof.
  intros Hw.
  change (2 ^ 8) with 256. change (2 ^ 16) with 65536. change (2 ^ 24) with 16777216.
  change (2 ^ 32) with 4294967296 in Hw.
  Z.div_mod_to_equations. lia.
Qed.

Lemma word_split_bytes (b0 b1 b2 b3 : Z) :
  0 <= b0 < 2 ^ 8 -> 0 <= b1 < 2 ^ 8 -> 0 <= b2 < 2 ^ 8 -> 0 <= b3 < 2 ^ 8 ->
  word_bytes (b0 + 2 ^ 8 * b1 + 2 ^ 16 * b2 + 2 ^ 24 * b3) = [b0; b1; b2; b3].
Proof.
  intros H0 H1 H2 H3. unfold word_bytes.
  change (2 ^ 8) with 256 in *. change (2 ^ 16) with 65536. change (2 ^ 24) with 16777216.
  repeat f_equal; Z.div_mod_to_equations; lia.
Qed.

Lemma word_at_skip (b0 b1 b2 b3 : Z) (rest : list Z) (i : nat) :
  word_at (b0 :: b1 :: b2 :: b3 :: rest) (S i) = word_at rest i.
Proof.
  unfold word_at.
  replace (4 * S i)%nat with (S (S (S (S (4 * i))))) by lia.
  replace (S (S (S (S (4 * i)))) + 1)%nat with (S (S (S (S (4 * i + 1))))) by lia.
  replace (S (S (S (S (4 * i)))) + 2)%nat with (S (S (S (S (4 * i + 2))))) by lia.
  replace (S (S (S (S (4 * i)))) + 3)%nat with (S (S (S (S (4 * i + 3))))) by lia.
  reflexivity.
Qed.

Lemma words_of_skip (b0 b1 b2 b3 : Z) (rest : list Z) (n : nat) :
  words_of (b0 :: b1 :: b2 :: b3 :: rest) (S n)
  = (b0 + 2 ^ 8 * b1 + 2 ^ 16 * b2 + 2 ^ 24 * b3) :: words_of rest n.
Proof.
  unfold words_of. simpl seq. simpl map. f_equal.
  rewrite <- seq_shift, map_map. apply map_ext. intros i. apply word_at_skip.
Qed.

(** Reading an array of words back from its storage gives the words. *)
Lemma words_of_bytes_of_words (ws : list Z) :
  Forall (fun w => 0 <= w < 2 ^ 32) ws ->
  words_of (bytes_of_words ws) (length ws) = ws.
Proof.
  induction 1 as [|w ws Hw _ IH]; [reflexivity|].
  change (bytes_of_words (w :: ws))
    with (w mod 2 ^ 8 :: (w / 2 ^ 8) mod 2 ^ 8 :: (w / 2 ^ 16) mod 2 ^ 8
          :: (w / 2 ^ 24) mod 2 ^ 8 :: bytes_of_words ws).
  change (length (w :: ws)) with (S (length ws)).
  rewrite words_of_skip, IH.
  f_equal. apply word_bytes_join. assumption.
Qed.

(** The storage of the words of a byte array is the byte array. *)
Lemma bytes_of_words_of (n : nat) (bs : list Z) :
  length bs = (4 * n)%nat ->
  Forall (fun b => 0 <= b < 2 ^ 8) bs ->
  bytes_of_words (words_of bs n) = bs.
Proof.
  revert bs. induction n as [|n IH]; intros bs Hlen Hbs.
  - destruct bs; [reflexivity | discriminate].
  - destruct bs as [|b0 [|b1 [|b2 [|b3 rest]]]]; simpl in Hlen; try lia.
    inversion Hbs as [|? ? H0 Hbs1]; subst.
    inversion Hbs1 as [|? ? H1 Hbs2]; subst.
    inversion Hbs2 as [|? ? H2 Hbs3]; subst.
    inversion Hbs3 as [|? ? H3 Hrest]; subst.
    rewrite words_of_skip.
    change (bytes_of_words (?w :: ?ws)) with (word_bytes w ++ bytes_of_words ws).
    rewrite word_split_bytes by assumption.
    rewrite IH; [reflexivity | lia | assumption].
Qed.

(** The comparison of a block program: the byte-wise [memcmp] of the two
    arrays finds no difference exactly when the words read are the words
    written. *)
Lemma block_compare (data : buffer) (rdata : list Z) :
  length rdata = 64%nat ->
  Forall (fun w => 0 <= w < 2 ^ 32) rdata ->
  memcmp_differs (load_bytes data 256) (bytes_of_words rdata) = false
  <-> rdata = words_of (load_bytes data 256) 64.
Proof.
  intros Hlen Hr. rewrite memcmp_differs_false. split; intros H.
  - rewrite H, <- Hlen. symmetry. apply words_of_bytes_of_words. assumption.
  - rewrite H. symmetry. apply bytes_of_words_of.
    + apply load_bytes_length.
    + apply load_bytes_range.
Qed.

(** ** Termination *)

Section Returns.

Context {D : Type}.

Lemma returns_ret {A} (a : A) : returns (D := D) (ret a).
Proof. intros w. discriminate. Qed.

Lemma returns_bind {A B} (m : M D A) (k : A -> M D B) :
  returns m -> (forall a, returns (k a)) -> returns (bind m k).
Proof.
  intros Hm Hk w. unfold bind. destruct (m w) as [[a w1]|] eqn:E.
  - apply Hk.
  - exfalso. exact (Hm w E).
Qed.

Lemma total_returns {A} (m : M D A) P : total m P -> returns m.
Proof.
  intros Hm w. destruct (Hm w) as (a & w' & evs & E & _). rewrite E. discriminate.
Qed.

Lemma emits_returns_total {A} (m : M D A) P : emits m P -> returns m -> total m P.
Proof.
  intros He Hr w. destruct (m w) as [[a w']|] eqn:E.
  - destruct (He _ _ _ E) as (evs & Et & HP). exists a, w', evs. auto.
  - exfalso. exact (Hr w E).
Qed.

Lemma returns_for_each (indices : list nat) (body : nat -> M D unit) :
  (forall i, returns (body i)) -> returns (for_each indices body).
Proof.
  intros Hbody. induction indices as [|i rest IH]; simpl.
  - apply returns_ret.
  - apply returns_bind; auto.
Qed.

Lemma returns_for_collect (indices : list nat) (body : nat -> M D Z) :
  (forall i, returns (body i)) -> returns (for_collect indices body).
Proof.
  intros Hbody. induction indices as [|i rest IH]; simpl.
  - apply returns_ret.
  - apply returns_bind; [apply Hbody|]. intros v.
    apply returns_bind; [apply IH|]. intros vs. apply returns_ret.
Qed.

End Returns.

(** ** Flash programmer *)

Lemma last_cons (x : Z) (rest : list Z) (d : Z) : last (x :: rest) d = last rest x.
Proof.
  revert x d. induction rest as [|y rest IH]; intros x d; [reflexivity|].
  change (last (x :: y :: rest) d) with (last (y :: rest) d).
  rewrite (IH y d), (IH y x). reflexivity.
Qed.

Section Flash.

Context {D : Type} (hw : rvswd_transport D).

Lemma wait_flash_loop_emits (fuel : nat) (value : Z) :
  emits (wait_flash_loop hw fuel value)
        (fun _ evs => exists rest,
           evs = flat_map (fun v' => EvDelayTicks 1 :: read_memory_word_events 0x4002200C v')
                          rest /\
           (length rest <= fuel)%nat /\
           Z.land (last rest value) 1 = 0).
Proof.
  revert value. induction fuel as [|fuel IH]; intros value; simpl wait_flash_loop;
    destruct (Z.eqb_spec (Z.land value CH32_FLASH_STATR_BUSY) 0) as [Hfree|Hbusy];
    simpl negb; cbv iota.
  - apply emits_ret. exists []. simpl. auto.
  - apply emits_out_of_fuel.
  - apply emits_ret. exists []. simpl. split; [reflexivity|]. split; [lia|assumption].
  - estep emits_emit. subst.
    estep (total_emits _ _ (ch32_read_memory_word_total hw CH32_FLASH_STATR)).
    destruct H as (_ & -> & _).
    eapply emits_weaken; [apply IH|]. cbv beta.
    intros _ evs (rest & -> & Hlen & Hlast).
    exists (snd a0 :: rest). split; [reflexivity|]. split; [simpl; lia|].
    rewrite last_cons. assumption.
Qed.

Lemma ch32_wait_flash_emits (fuel : nat) :
  emits (ch32_wait_flash hw fuel)
        (fun _ evs => exists polls,
           evs = wait_flash_events polls /\
           (1 <= length polls <= S fuel)%nat /\
           Z.land (last polls 1) 1 = 0).
Proof.
  unfold ch32_wait_flash.
  estep (total_emits _ _ (ch32_read_memory_word_total hw CH32_FLASH_STATR)).
  destruct H as (_ & -> & _).
  eapply emits_weaken; [apply wait_flash_loop_emits|]. cbv beta.
  intros _ evs (rest & -> & Hlen & Hlast).
  exists (snd a :: rest). split; [reflexivity|]. split; [simpl; lia|].
  rewrite last_cons. assumption.
Qed.

Lemma wait_flash_write_loop_emits (fuel : nat) (value : Z) :
  emits (wait_flash_write_loop hw fuel value)
        (fun _ evs => exists rest,
           evs = wait_flash_write_events rest /\
           (length rest <= fuel)%nat /\
           Z.land (last rest value) 2 = 0).
Proof.
  revert value. induction fuel as [|fuel IH]; intros value; simpl wait_flash_write_loop;
    destruct (Z.eqb_spec (Z.land value CH32_FLASH_STATR_WRBUSY) 0) as [Hfree|Hbusy];
    simpl negb; cbv iota.
  - apply emits_ret. exists []. simpl. auto.
  - apply emits_out_of_fuel.
  - apply emits_ret. exists []. simpl. split; [reflexivity|]. split; [lia|assumption].
  - estep (total_emits _ _ (ch32_read_memory_word_total hw CH32_FLASH_STATR)).
    destruct H as (_ & -> & _).
    eapply emits_weaken; [apply IH|]. cbv beta.
    intros _ evs (rest & -> & Hlen & Hlast).
    exists (snd a :: rest). split; [reflexivity|]. split; [simpl; lia|].
    rewrite last_cons. assumption.
Qed.

Lemma ch32_wait_flash_write_emits (fuel : nat) :
  emits (ch32_wait_flash_write hw fuel)
        (fun _ evs => exists polls,
           evs = wait_flash_write_events polls /\
           (1 <= length polls <= S fuel)%nat /\
           Z.land (last polls 2) 2 = 0).
Proof.
  unfold ch32_wait_flash_write.
  estep (total_emits _ _ (ch32_read_memory_word_total hw CH32_FLASH_STATR)).
  destruct H as (_ & -> & _).
  eapply emits_weaken; [apply wait_flash_write_loop_emits|]. cbv beta.
  intros _ evs (rest & -> & Hlen & Hlast).
  exists (snd a :: rest). split; [reflexivity|]. split; [simpl; lia|].
  rewrite last_cons. assumption.
Qed.

Lemma ch32_erase_flash_block_emits (fuel : nat) (addr : Z) :
  addr mod 256 = 0 ->
  emits (ch32_erase_flash_block hw fuel addr)
        (fun r evs => r = true /\ exists p1 p2, evs = erase_events addr p1 p2).
Proof.
  intros Hal. unfold ch32_erase_flash_block.
  apply Z.eqb_eq in Hal. rewrite Hal. simpl negb. cbv iota.
  estep ch32_wait_flash_emits. destruct H as (p1 & -> & _).
  do 3 (estep (total_emits _ _ (ch32_write_memory_word_total hw _ _));
        destruct H as [_ ->]).
  estep ch32_wait_flash_emits. destruct H as (p2 & -> & _).
  estep (total_emits _ _ (ch32_write_memory_word_total hw _ _)). destruct H as [_ ->].
  apply emits_ret. split; [reflexivity|]. exists p1, p2.
  unfold erase_events. rewrite app_nil_r. reflexivity.
Qed.

Lemma program_words_emits (fuel : nat) (addr : Z) (wdata : list Z) :
  emits (for_each (seq 0 64) (fun i =>
           ch32_write_memory_word hw (wrap32 (addr + Z.of_nat i * 4)) (word_at wdata i) ;;
           ch32_wait_flash_write hw fuel))
        (fun _ evs => program_words_events addr (word_at wdata) evs).
Proof.
  apply for_each_emits with
    (P := fun i es => exists polls,
            es = write_memory_word_events (wrap32 (addr + Z.of_nat i * 4)) (word_at wdata i)
                 ++ wait_flash_write_events polls).
  intros i.
  estep (total_emits _ _ (ch32_write_memory_word_total hw _ _)). destruct H as [_ ->].
  eapply emits_weaken; [apply ch32_wait_flash_write_emits|]. cbv beta.
  intros _ evs (polls & -> & _). exists polls. reflexivity.
Qed.

Lemma readback_total (addr : Z) :
  total (for_collect (seq 0 64) (fun i =>
           vTaskDelay 0 ;;
           rv <- ch32_read_memory_word hw (wrap32 (addr + Z.of_nat i * 4)) ;;
           ret (snd rv)))
        (fun rdata evs =>
           length rdata = 64%nat /\
           Forall (fun v => 0 <= v < 2 ^ 32) rdata /\
           evs = readback_events addr rdata).
Proof.
  eapply total_weaken.
  - apply for_collect_total with
      (E := fun i v => EvDelayTicks 0
                       :: read_memory_word_events (wrap32 (addr + Z.of_nat i * 4)) v)
      (R := fun v => 0 <= v < 2 ^ 32).
    intros i. tstep total_emit. subst.
    tstep ch32_read_memory_word_total. destruct H as (_ & -> & Hr).
    apply total_ret. rewrite app_nil_r. split; [reflexivity | assumption].
  - cbv beta. intros rdata evs (Hlen & Hr & ->). auto.
Qed.

(** The whole of a block program at an aligned address. *)
Lemma ch32_write_flash_block_emits (fuel : nat) (addr : Z) (data : buffer) :
  addr mod 256 = 0 ->
  emits (ch32_write_flash_block hw fuel addr data)
        (fun r evs => exists p1 words p2 rdata,
           let wdata := words_of (load_bytes data 256) 64 in
           program_words_events addr (word_at (load_bytes data 256)) words /\
           length rdata = 64%nat /\
           Forall (fun v => 0 <= v < 2 ^ 32) rdata /\
           (r = true <-> rdata = wdata) /\
           evs = program_events addr p1 words p2
                 ++ readback_events addr rdata
                 ++ (if r then [] else [EvLog (LogBlockMismatch addr wdata rdata)])).
Proof.
  intros Hal. unfold ch32_write_flash_block.
  apply Z.eqb_eq in Hal. rewrite Hal. simpl negb. cbv iota zeta.
  estep ch32_wait_flash_emits. destruct H as (p1 & -> & _).
  do 2 (estep (total_emits _ _ (ch32_write_memory_word_total hw _ _));
        destruct H as [_ ->]).
  estep program_words_emits. rename e1 into words.
  estep (total_emits _ _ (ch32_write_memory_word_total hw _ _)). destruct H0 as [_ ->].
  estep ch32_wait_flash_emits. destruct H0 as (p2 & -> & _).
  estep (total_emits _ _ (ch32_write_memory_word_total hw _ _)). destruct H0 as [_ ->].
  estep emits_emit. subst.
  estep (total_emits _ _ (readback_total addr)). destruct H0 as (Hlen & Hr & ->).
  rename a7 into rdata.
  pose proof (block_compare data rdata Hlen Hr) as Hcmp.
  destruct (memcmp_differs (load_bytes data 256) (bytes_of_words rdata)).
  - estep emits_emit. subst. apply emits_ret.
    exists p1, words, p2, rdata. cbv zeta. repeat split; auto.
    + discriminate.
    + intros Heq. apply Hcmp in Heq. discriminate.
    + unfold program_events. rewrite <- ?app_assoc. rewrite ?app_nil_r. reflexivity.
  - apply emits_ret.
    exists p1, words, p2, rdata. cbv zeta. repeat split; auto.
    + intros _. apply Hcmp. reflexivity.
    + unfold program_events. rewrite <- ?app_assoc. rewrite ?app_nil_r. reflexivity.
Qed.

End Flash.

Section FlashReturns.

Context {D : Type} (hw : rvswd_transport D) (fuel : nat).
Hypothesis Hwaits : waits_return hw fuel.

Lemma returns_wait_flash : returns (ch32_wait_flash hw fuel).
Proof. intros w. apply Hwaits. Qed.

Lemma returns_wait_flash_write : returns (ch32_wait_flash_write hw fuel).
Proof. intros w. apply Hwaits. Qed.

Lemma returns_write_memory_word (address value : Z) :
  returns (ch32_write_memory_word hw address value).
Proof. exact (total_returns _ _ (ch32_write_memory_word_total hw address value)). Qed.

Lemma returns_read_memory_word (address : Z) :
  returns (ch32_read_memory_word hw address).
Proof. exact (total_returns _ _ (ch32_read_memory_word_total hw address)). Qed.

Lemma returns_emit (e : event) : returns (D := D) (emit e).
Proof. intros w. discriminate. Qed.

Ltac returns_step :=
  first [ apply returns_ret
        | apply returns_emit
        | apply returns_wait_flash
        | apply returns_wait_flash_write
        | apply returns_write_memory_word
        | apply returns_read_memory_word
        | apply returns_for_each; intros ?
        | apply returns_for_collect; intros ?
        | apply returns_bind; [|intros ?] ].

Lemma returns_erase_flash_block (addr : Z) :
  returns (ch32_erase_flash_block hw fuel addr).
Proof.
  unfold ch32_erase_flash_block. destruct (negb (addr mod 256 =? 0)).
  - apply returns_ret.
  - repeat returns_step.
Qed.

Lemma returns_write_flash_block (addr : Z) (data : buffer) :
  returns (ch32_write_flash_block hw fuel addr data).
Proof.
  unfold ch32_write_flash_block. destruct (negb (addr mod 256 =? 0)).
  - apply returns_ret.
  - cbv zeta. repeat returns_step.
    destruct (memcmp_differs _ _); repeat returns_step.
Qed.

End FlashReturns.

(** On a target whose registers all read 0 the busy bits are never set, so
    the waits return at their first poll. *)
Lemma const_target_waits_return (fuel : nat) : waits_return (const_target 0) fuel.
Proof.
  intros [[] t]. split; destruct fuel; discriminate.
Qed.

(** C5: at a 256-byte-aligned address the block program, once the words are
    written and the page is started, reads the 64 words at [addr], [addr+4],
    ... back, and its result is [true] exactly when the 64 words read are
    the 64 words written; on a mismatch it logs and returns [false] without
    touching the target again.  It returns whenever the controller's busy
    bits clear within the fuel of the waits. *)
Theorem ch32_write_flash_block_verifies {D} (hw : rvswd_transport D)
    (fuel : nat) (addr : Z) (data : buffer) (w : world D) :
  addr mod 256 = 0 ->
  (forall r w',
     ch32_write_flash_block hw fuel addr data w = Some (r, w') ->
     exists p1 words p2 rdata,
       let wdata := words_of (load_bytes data 256) 64 in
       program_words_events addr (word_at (load_bytes data 256)) words /\
       length rdata = 64%nat /\
       trace w' = trace w
                  ++ program_events addr p1 words p2
                  ++ readback_events addr rdata
                  ++ (if r then [] else [EvLog (LogBlockMismatch addr wdata rdata)]) /\
       (r = true <-> rdata = wdata)) /\
  (waits_return hw fuel ->
   exists r w', ch32_write_flash_block hw fuel addr data w = Some (r, w')).
Proof.
  intros Hal. split.
  - intros r w' E.
    destruct (ch32_write_flash_block_emits hw fuel addr data Hal _ _ _ E)
      as (evs & Et & p1 & words & p2 & rdata & Hwords & Hlen & _ & Hiff & ->).
    exists p1, words, p2, rdata. cbv zeta. auto.
  - intros Hwaits.
    pose proof (returns_write_flash_block hw fuel Hwaits addr data w) as Hret.
    destruct (ch32_write_flash_block hw fuel addr data w) as [[r w']|]; [eauto | congruence].
Qed.

Lemma ch32_write_flash_block_verifies_witness :
  exists r w' p1 words p2 rdata,
    ch32_write_flash_block (const_target 0) 0 0x08000000 zeros (power_on tt) = Some (r, w') /\
    program_words_events 0x08000000 (word_at (load_bytes zeros 256)) words /\
    length rdata = 64%nat /\
    trace w' = trace (power_on tt)
               ++ program_events 0x08000000 p1 words p2
               ++ readback_events 0x08000000 rdata
               ++ (if r then []
                   else [EvLog (LogBlockMismatch 0x08000000
                                  (words_of (load_bytes zeros 256) 64) rdata)]) /\
    (r = true <-> rdata = words_of (load_bytes zeros 256) 64).
Proof.
  destruct (ch32_write_flash_block_verifies (const_target 0) 0 0x08000000 zeros
              (power_on tt) eq_refl) as [Hpart Htotal].
  destruct (Htotal (const_target_waits_return 0)) as (r & w' & E).
  destruct (Hpart r w' E) as (p1 & words & p2 & rdata & H).
  exists r, w', p1, words, p2, rdata. split; [exact E | exact H].
Defined.

(** A target that holds zeros: a block of zeros verifies, a block with one
    bit set does not. *)
Example write_flash_block_match :
  option_map fst
    (ch32_write_flash_block (const_target 0) 0 0x08000000 zeros (power_on tt))
  = Some true.
Proof. vm_compute. reflexivity. Qed.

Example write_flash_block_one_bit_off :
  option_map fst
    (ch32_write_flash_block (const_target 0) 0 0x08000000
       (fun k => if k =? 255 then Byte.x80 else Byte.x00) (power_on tt))
  = Some false.
Proof. vm_compute. reflexivity. Qed.

(** ** The write loop *)

Lemma to_int_small (z : Z) : 0 <= z < 2 ^ 31 -> to_int z = z.
Proof.
  intros Hz. unfold to_int, wrap32. rewrite Z.mod_small by lia.
  destruct (Z.ltb_spec z (2 ^ 31)); lia.
Qed.

Lemma wrap32_small (z : Z) : 0 <= z < 2 ^ 32 -> wrap32 z = z.
Proof. intros Hz. apply Z.mod_small. assumption. Qed.

Lemma chunk_count_covers (data_len : Z) :
  0 <= data_len ->
  256 * Z.of_nat (chunk_count data_len) >= data_len /\
  (0 < Z.of_nat (chunk_count data_len) ->
   256 * (Z.of_nat (chunk_count data_len) - 1) < data_len).
Proof.
  intros Hlen. unfold chunk_count.
  rewrite Z2Nat.id by (apply Z.div_pos; lia).
  Z.div_mod_to_equations. lia.
Qed.

Lemma offsets_from_length (start : Z) (count : nat) :
  length (offsets_from start count) = count.
Proof. revert start. induction count; intros; simpl; auto. Qed.

Lemma chunk_count_exact (data_len : Z) :
  0 <= data_len ->
  Z.of_nat (length (chunk_offsets data_len)) = (data_len + 255) / 256.
Proof.
  intros Hlen. unfold chunk_offsets. rewrite offsets_from_length.
  unfold chunk_count. apply Z2Nat.id. apply Z.div_pos; lia.
Qed.

Lemma offsets_from_nth (start : Z) (count k : nat) :
  (k < count)%nat -> nth k (offsets_from start count) 0 = start + 256 * Z.of_nat k.
Proof.
  revert start k. induction count as [|count IH]; intros start k Hk; [lia|].
  destruct k as [|k]; simpl.
  - lia.
  - rewrite IH by lia. lia.
Qed.

Lemma quiet_app (a b : list event) : quiet a -> quiet b -> quiet (a ++ b).
Proof. unfold quiet. intros Ha Hb. rewrite filter_app, Ha, Hb. reflexivity. Qed.

Lemma quiet_concat (ess : list (list event)) : Forall quiet ess -> quiet (concat ess).
Proof.
  induction 1 as [|es ess Hes _ IH]; [reflexivity|]. simpl. apply quiet_app; assumption.
Qed.

Lemma quiet_flat_map {A} (f : A -> list event) (l : list A) :
  (forall x, quiet (f x)) -> quiet (flat_map f l).
Proof.
  intros Hf. induction l as [|x l IH]; [reflexivity|].
  cbn [flat_map]. apply quiet_app; [apply Hf | exact IH].
Qed.

Lemma quiet_wait_flash_events (polls : list Z) : quiet (wait_flash_events polls).
Proof.
  destruct polls as [|v rest]; [reflexivity|]. unfold wait_flash_events.
  apply quiet_app; [reflexivity|].
  apply quiet_flat_map. intros v'. reflexivity.
Qed.

Lemma quiet_wait_flash_write_events (polls : list Z) : quiet (wait_flash_write_events polls).
Proof.
  unfold wait_flash_write_events. apply quiet_flat_map. intros v. reflexivity.
Qed.

Lemma quiet_erase_events (addr : Z) (p1 p2 : list Z) : quiet (erase_events addr p1 p2).
Proof.
  unfold erase_events.
  repeat (apply quiet_app; [first [apply quiet_wait_flash_events | reflexivity]|]).
  reflexivity.
Qed.

Lemma quiet_program_words (addr : Z) (word : nat -> Z) (evs : list event) :
  program_words_events addr word evs -> quiet evs.
Proof.
  intros (ess & HF & ->). apply quiet_concat.
  induction HF as [|i es is' ess' (polls & ->) _ IH]; constructor; [|exact IH].
  apply quiet_app; [reflexivity | apply quiet_wait_flash_write_events].
Qed.

Lemma quiet_readback_events (addr : Z) (rdata : list Z) : quiet (readback_events addr rdata).
Proof.
  unfold readback_events. apply quiet_concat. apply Forall_forall.
  intros es Hin. apply in_map_iff in Hin. destruct Hin as (iv & <- & _). reflexivity.
Qed.

Lemma quiet_program_events (addr : Z) (p1 : list Z) (words : list event) (p2 : list Z) :
  quiet words -> quiet (program_events addr p1 words p2).
Proof.
  intros Hwords. unfold program_events.
  repeat (apply quiet_app;
          [first [apply quiet_wait_flash_events | exact Hwords | reflexivity]|]).
  reflexivity.
Qed.

Section WriteLoop.

Context {D : Type} (hw : rvswd_transport D).

Lemma erase_true_aligned (fuel : nat) (addr : Z) (w w' : world D) :
  ch32_erase_flash_block hw fuel addr w = Some (true, w') -> addr mod 256 = 0.
Proof.
  unfold ch32_erase_flash_block. destruct (Z.eqb_spec (addr mod 256) 0); [auto|].
  simpl. discriminate.
Qed.

Lemma ch32_erase_flash_block_quiet (fuel : nat) (addr : Z) :
  emits (ch32_erase_flash_block hw fuel addr) (fun _ evs => quiet evs).
Proof.
  destruct (Z.eq_dec (addr mod 256) 0) as [Hal|Hmis].
  - eapply emits_weaken; [apply ch32_erase_flash_block_emits; assumption|].
    cbv beta. intros r evs (_ & p1 & p2 & ->). apply quiet_erase_events.
  - intros w r w' E.
    rewrite (erase_misaligned hw fuel addr w Hmis) in E. injection E as <- <-. exists []. rewrite app_nil_r. split; reflexivity.
Qed.

Lemma ch32_write_flash_block_quiet (fuel : nat) (addr : Z) (data : buffer) :
  emits (ch32_write_flash_block hw fuel addr data) (fun _ evs => quiet evs).
Proof.
  destruct (Z.eq_dec (addr mod 256) 0) as [Hal|Hmis].
  - eapply emits_weaken; [apply ch32_write_flash_block_emits; assumption|].
    cbv beta. intros r evs (p1 & words & p2 & rdata & Hwords & _ & _ & _ & ->).
    apply quiet_app; [|apply quiet_app].
    + apply quiet_program_events. exact (quiet_program_words _ _ _ Hwords).
    + apply quiet_readback_events.
    + destruct r; reflexivity.
  - intros w r w' E.
    rewrite (program_misaligned hw fuel addr data w Hmis) in E. injection E as <- <-. exists []. rewrite app_nil_r. split; reflexivity.
Qed.

(** A chunk calls the status callback once, before anything else goes over
    the wire. *)
Lemma write_chunk_emits (fuel : nat) (addr : Z) (data : buffer) (data_len offset : Z) :
  emits (write_chunk hw fuel addr data data_len offset)
        (fun _ evs => exists rest,
           evs = EvDelayTicks 0 :: status_event addr data_len offset :: rest /\
           quiet rest).
Proof.
  unfold write_chunk.
  estep emits_emit. subst. estep emits_emit. subst.
  estep ch32_erase_flash_block_quiet. rename e1 into ers.
  destruct a1.
  - estep ch32_write_flash_block_quiet. rename e1 into prg.
    destruct a1.
    + apply emits_ret. exists (ers ++ prg). split.
      * rewrite app_nil_r. reflexivity.
      * apply quiet_app; assumption.
    + estep emits_emit. subst. apply emits_ret. eexists. split.
      * cbn [app]. reflexivity.
      * rewrite ?app_nil_r. repeat apply quiet_app; auto. reflexivity.
  - estep emits_emit. subst. apply emits_ret. eexists. split.
    + cbn [app]. reflexivity.
    + rewrite ?app_nil_r. apply quiet_app; auto. reflexivity.
Qed.

(** The status callbacks of a run over [offsets]: one per chunk begun, in
    the order of the offsets, all of them when the run succeeds. *)
Lemma write_chunks_status (fuel : nat) (addr : Z) (data : buffer) (data_len : Z)
    (offsets : list Z) :
  emits (write_chunks hw fuel addr data data_len offsets)
        (fun r evs => exists m,
           (m <= length offsets)%nat /\
           filter is_status evs = map (status_event addr data_len) (firstn m offsets) /\
           (r = true -> m = length offsets)).
Proof.
  induction offsets as [|offset rest IH]; simpl write_chunks.
  - apply emits_ret. exists 0%nat. repeat split; auto.
  - estep write_chunk_emits. destruct H as (tl & -> & Hq).
    destruct a.
    + eapply emits_weaken; [apply IH|]. cbv beta.
      intros r evs (m & Hm & Hst & Hall). exists (S m). repeat split.
      * simpl. lia.
      * cbn [app filter is_status]. rewrite filter_app, Hq, Hst. reflexivity.
      * intros Hr. simpl. rewrite Hall by assumption. reflexivity.
    + apply emits_ret. exists 1%nat. repeat split.
      * simpl. lia.
      * cbn [app filter is_status]. rewrite app_nil_r, Hq. reflexivity.
      * discriminate.
Qed.

Lemma announce (addr data_len offset : Z) {A} (k : M D A) (w : world D) :
  (vTaskDelay 0 ;;
   ch32_status_callback (WritingAt (wrap32 (addr + offset))) offset data_len ;; k) w
  = k (announced addr data_len offset w).
Proof.
  unfold bind, vTaskDelay, ch32_status_callback, emit, announced, status_event.
  cbn [dev trace]. rewrite <- app_assoc. reflexivity.
Qed.

Lemma write_chunk_run (fuel : nat) (addr : Z) (data : buffer) (data_len offset : Z)
    {A} (k : bool -> M D A) (w : world D) :
  bind (write_chunk hw fuel addr data data_len offset) k w
  = match ch32_erase_flash_block hw fuel (wrap32 (addr + offset))
            (announced addr data_len offset w) with
    | Some (true, w1) =>
        match ch32_write_flash_block hw fuel (wrap32 (addr + offset))
                (ptr_add data offset) w1 with
        | Some (true, w2) => k true w2
        | Some (false, w2) =>
            (log (LogWriteFailed (wrap32 (addr + offset))) ;; k false) w2
        | None => None
        end
    | Some (false, w1) => (log (LogEraseFailed (wrap32 (addr + offset))) ;; k false) w1
    | None => None
    end.
Proof.
  unfold bind at 1. unfold write_chunk. rewrite announce. unfold bind.
  destruct (ch32_erase_flash_block hw fuel (wrap32 (addr + offset)) _) as [[[] w1]|];
    try reflexivity.
  destruct (ch32_write_flash_block hw fuel (wrap32 (addr + offset)) _ w1) as [[[] w2]|];
    reflexivity.
Qed.

(** The loop of the source, started at chunk boundary [i] with [m] chunks
    to go, is the run over the offsets of those chunks. *)
Lemma write_flash_loop_chunks (fuel : nat) (addr : Z) (data : buffer) (data_len : Z) :
  0 <= data_len < 2 ^ 31 ->
  forall (m n : nat) (i : Z) (w : world D),
    0 <= i ->
    (m <= n)%nat ->
    i + 256 * Z.of_nat m >= data_len ->
    (0 < Z.of_nat m -> i + 256 * (Z.of_nat m - 1) < data_len) ->
    write_flash_loop hw fuel n addr data data_len i w
    = write_chunks hw fuel addr data data_len (offsets_from i m) w.
Proof.
  intros Hlen. induction m as [|m IH]; intros n i w Hi Hmn Hcover Hlast.
  - assert (Hdone : (i <? data_len) = false) by (apply Z.ltb_ge; lia).
    destruct n; simpl; rewrite Hdone; reflexivity.
  - assert (Hmore : (i <? data_len) = true) by (apply Z.ltb_lt; lia).
    destruct n as [|n]; [lia|].
    cbn [write_flash_loop offsets_from write_chunks]. rewrite Hmore.
    rewrite !to_int_small by lia.
    rewrite announce, write_chunk_run. unfold bind.
    destruct (ch32_erase_flash_block hw fuel (wrap32 (addr + i)) _) as [[[] w1]|];
      cbn [negb]; try reflexivity.
    destruct (ch32_write_flash_block hw fuel (wrap32 (addr + i)) _ w1) as [[[] w2]|];
      cbn [negb]; try reflexivity.
    rewrite wrap32_small by lia.
    apply IH; lia.
Qed.

End WriteLoop.

Section WriteFlash.

Context {D : Type} (hw : rvswd_transport D).

Lemma remaining_chunks (data_len i : Z) :
  0 <= i < data_len ->
  Z.to_nat ((data_len - i + 255) / 256)
  = S (Z.to_nat ((data_len - (i + 256) + 255) / 256)).
Proof.
  intros Hi. rewrite <- Z2Nat.inj_succ by (apply Z.div_pos; lia).
  f_equal. Z.div_mod_to_equations. lia.
Qed.

Lemma no_remaining_chunks (data_len i : Z) :
  data_len <= i -> Z.to_nat ((data_len - i + 255) / 256) = 0%nat.
Proof.
  intros Hi. assert ((data_len - i + 255) / 256 <= 0) by (Z.div_mod_to_equations; lia).
  lia.
Qed.

(** When the loop of the source ends in success it has completed one cycle
    for every chunk from [i] on. *)
Lemma write_flash_loop_success (fuel : nat) (addr : Z) (data : buffer) (data_len : Z) :
  0 <= data_len < 2 ^ 31 ->
  forall (n : nat) (i : Z) (w w' : world D),
    0 <= i ->
    write_flash_loop hw fuel n addr data data_len i w = Some (true, w') ->
    block_cycles hw fuel addr data data_len
      (offsets_from i (Z.to_nat ((data_len - i + 255) / 256))) w w'.
Proof.
  intros Hlen. induction n as [|n IH]; intros i w w' Hi E;
    cbn [write_flash_loop] in E;
    destruct (Z.ltb_spec i data_len) as [Hmore|Hdone];
    try discriminate;
    try (rewrite no_remaining_chunks by lia; injection E as <-; reflexivity).
  rewrite !to_int_small in E by lia. rewrite announce in E. unfold bind in E.
  destruct (ch32_erase_flash_block hw fuel (wrap32 (addr + i)) _)
    as [[[] w1]|] eqn:Eerase; cbn [negb] in E; try discriminate.
  destruct (ch32_write_flash_block hw fuel (wrap32 (addr + i)) _ w1)
    as [[[] w2]|] eqn:Eprog; cbn [negb] in E; try discriminate.
  rewrite wrap32_small in E by lia.
  rewrite remaining_chunks by lia. cbn [offsets_from block_cycles].
  pose proof (erase_true_aligned _ _ _ _ _ Eerase) as Hal.
  destruct (ch32_write_flash_block_emits hw fuel _ (ptr_add data i) Hal _ _ _ Eprog)
    as (evs & Et & p1 & words & p2 & rdata & Hwords & _ & _ & Hiff & ->).
  cbv zeta in Hiff. destruct Hiff as [Hread _]. rewrite (Hread eq_refl) in Et.
  rewrite !app_nil_r in Et.
  exists w1, w2, p1, words, p2. repeat split; auto.
  apply IH; [lia | assumption].
Qed.

Lemma returns_write_chunks (fuel : nat) (addr : Z) (data : buffer) (data_len : Z)
    (offsets : list Z) :
  waits_return hw fuel ->
  returns (write_chunks hw fuel addr data data_len offsets).
Proof.
  intros Hwaits. induction offsets as [|offset rest IH]; cbn [write_chunks].
  - apply returns_ret.
  - apply returns_bind.
    + unfold write_chunk.
      apply returns_bind; [apply returns_emit | intros _].
      apply returns_bind; [apply returns_emit | intros _].
      apply returns_bind; [apply returns_erase_flash_block; assumption | intros erased].
      destruct erased.
      * apply returns_bind; [apply returns_write_flash_block; assumption | intros written].
        destruct written.
        -- apply returns_ret.
        -- apply returns_bind; [apply returns_emit | intros _; apply returns_ret].
      * apply returns_bind; [apply returns_emit | intros _; apply returns_ret].
    + intros ok. destruct ok; [exact IH | apply returns_ret].
Qed.

End WriteFlash.

(** C3: a base address that is not a multiple of 64 is refused with the
    world untouched.  Otherwise the run is the run over the chunks at
    offsets 0, 256, 512, ... in that order, where each chunk calls the status
    callback with its offset and the length of the data, erases the block and
    programs the block, and the first erase or program that fails ends the
    run with [false]; the status callback is called once per chunk begun; and
    the run returns whenever the controller's busy bits clear. *)
Theorem ch32_write_flash_spec {D} (hw : rvswd_transport D)
    (fuel : nat) (addr : Z) (data : buffer) (data_len : Z) (w : world D) :
  (addr mod 64 <> 0 ->
   ch32_write_flash hw fuel addr data data_len w = Some (false, w)) /\
  (addr mod 64 = 0 ->
   0 <= data_len < 2 ^ 31 ->
   (chunk_count data_len <= fuel)%nat ->
   ch32_write_flash hw fuel addr data data_len w
   = write_chunks hw fuel addr data data_len (chunk_offsets data_len) w /\
   (forall k, (k < chunk_count data_len)%nat ->
      nth k (chunk_offsets data_len) 0 = 256 * Z.of_nat k) /\
   (forall r w',
      ch32_write_flash hw fuel addr data data_len w = Some (r, w') ->
      exists evs m,
        trace w' = trace w ++ evs /\
        (m <= chunk_count data_len)%nat /\
        filter is_status evs
        = map (status_event addr data_len) (firstn m (chunk_offsets data_len)) /\
        (r = true -> m = chunk_count data_len)) /\
   (waits_return hw fuel ->
    exists r w', ch32_write_flash hw fuel addr data data_len w = Some (r, w'))).
Proof.
  split.
  - intros Hmis. unfold ch32_write_flash.
    apply Z.eqb_neq in Hmis. rewrite Hmis. reflexivity.
  - intros Hal Hlen Hfuel.
    assert (Heq : ch32_write_flash hw fuel addr data data_len w
                  = write_chunks hw fuel addr data data_len (chunk_offsets data_len) w).
    { unfold ch32_write_flash. apply Z.eqb_eq in Hal. rewrite Hal. cbn [negb].
      destruct (chunk_count_covers data_len) as [Hcover Hlast]; [lia|].
      apply write_flash_loop_chunks; auto; lia. }
    split; [exact Heq|]. split; [|split].
    + intros k Hk. unfold chunk_offsets. rewrite offsets_from_nth by assumption. lia.
    + intros r w' E. rewrite Heq in E.
      destruct (write_chunks_status hw fuel addr data data_len _ _ _ _ E)
        as (evs & Et & m & Hm & Hst & Hall).
      unfold chunk_offsets in Hm, Hall. rewrite offsets_from_length in Hm, Hall.
      exists evs, m. auto.
    + intros Hwaits. rewrite Heq.
      pose proof (returns_write_chunks hw fuel addr data data_len
                    (chunk_offsets data_len) Hwaits w) as Hret.
      destruct (write_chunks hw fuel addr data data_len (chunk_offsets data_len) w)
        as [[r w']|]; [eauto | congruence].
Qed.

Lemma ch32_write_flash_spec_witness :
  ch32_write_flash (const_target 0) 2 0x08000020 zeros 512 (power_on tt)
  = Some (false, power_on tt) /\
  ch32_write_flash (const_target 0) 2 0x08000000 zeros 512 (power_on tt)
  = write_chunks (const_target 0) 2 0x08000000 zeros 512 (chunk_offsets 512) (power_on tt) /\
  exists r w' evs m,
    ch32_write_flash (const_target 0) 2 0x08000000 zeros 512 (power_on tt) = Some (r, w') /\
    trace w' = trace (power_on tt) ++ evs /\
    (m <= chunk_count 512)%nat /\
    filter is_status evs
    = map (status_event 0x08000000 512) (firstn m (chunk_offsets 512)) /\
    (r = true -> m = chunk_count 512).
Proof.
  destruct (ch32_write_flash_spec (const_target 0) 2 0x08000020 zeros 512 (power_on tt))
    as [Hmis _].
  destruct (ch32_write_flash_spec (const_target 0) 2 0x08000000 zeros 512 (power_on tt))
    as [_ Hal].
  destruct Hal as (Heq & _ & Hst & Htotal);
    [reflexivity | lia | vm_compute; lia |].
  destruct (Htotal (const_target_waits_return 2)) as (r & w' & E).
  destruct (Hst r w' E) as (evs & m & H).
  split; [apply Hmis; vm_compute; discriminate|].
  split; [exact Heq|].
  exists r, w', evs, m. split; [exact E | exact H].
Defined.

(** Two chunks on a target that holds zeros: two callbacks, progress 0 and
    256 of 512. *)
Example write_flash_two_chunks :
  option_map (fun rw => (fst rw, filter is_status (trace (snd rw))))
    (ch32_write_flash (const_target 0) 2 0x08000000 zeros 512 (power_on tt))
  = Some (true, [EvStatus (WritingAt 0x08000000) 0 512;
                 EvStatus (WritingAt 0x08000100) 256 512]).
Proof. vm_compute. reflexivity. Qed.

(** C10 (as the code has it): a run of the write loop that returns success
    has completed exactly ceil(data_len / 256) cycles, each of them an erase
    of the block followed by a program of the block with the 256 bytes at
    the chunk's offset, whether or not that many bytes of the image remain;
    with no data at all the loop body is never entered and success is
    returned with the world untouched. *)
Theorem write_flash_block_cycles {D} (hw : rvswd_transport D)
    (fuel : nat) (addr : Z) (data : buffer) (data_len : Z) (w w' : world D) :
  0 <= data_len < 2 ^ 31 ->
  (ch32_write_flash hw fuel addr data data_len w = Some (true, w') ->
   block_cycles hw fuel addr data data_len (chunk_offsets data_len) w w' /\
   Z.of_nat (length (chunk_offsets data_len)) = (data_len + 255) / 256) /\
  (addr mod 64 = 0 ->
   ch32_write_flash hw fuel addr data 0 w = Some (true, w)).
Proof.
  intros Hlen. split.
  - intros E. split; [|apply chunk_count_exact; lia].
    unfold ch32_write_flash in E. destruct (negb (addr mod 64 =? 0)); [discriminate|].
    apply (write_flash_loop_success hw fuel addr data data_len Hlen) in E; [|lia].
    rewrite Z.sub_0_r in E. exact E.
  - intros Hal. unfold ch32_write_flash. apply Z.eqb_eq in Hal. rewrite Hal.
    destruct fuel; reflexivity.
Qed.

Lemma write_flash_block_cycles_witness :
  exists w',
    ch32_write_flash (const_target 0) 2 0x08000000 zeros 300 (power_on tt) = Some (true, w') /\
    block_cycles (const_target 0) 2 0x08000000 zeros 300 (chunk_offsets 300) (power_on tt) w' /\
    Z.of_nat (length (chunk_offsets 300)) = (300 + 255) / 256 /\
    ch32_write_flash (const_target 0) 2 0x08000000 zeros 0 (power_on tt)
    = Some (true, power_on tt).
Proof.
  destruct (ch32_write_flash (const_target 0) 2 0x08000000 zeros 300 (power_on tt))
    as [[r w']|] eqn:E; [|vm_compute in E; discriminate].
  assert (Hr : r = true) by (vm_compute in E; congruence). subst r.
  exists w'.
  assert (Hlen : 0 <= 300 < 2 ^ 31) by lia.
  destruct (write_flash_block_cycles (const_target 0) 2 0x08000000 zeros 300
              (power_on tt) w' Hlen) as [Hcycles _].
  destruct (write_flash_block_cycles (const_target 0) 2 0x08000000 zeros 0
              (power_on tt) w' (conj (Z.le_refl 0) eq_refl)) as [_ Hnone].
  destruct (Hcycles E) as [Hc Hn].
  split; [reflexivity|]. split; [exact Hc|]. split; [exact Hn|].
  apply Hnone. reflexivity.
Defined.

(** C10 as claimed does not hold.  A base address that is a multiple of 64
    but not of 256 ends the run at the first erase, with nothing sent to the
    target, and a block that does not verify ends it after one cycle of the
    two the length asks for. *)
Lemma write_flash_cycles_refuted :
  0x08000040 mod 64 = 0 /\
  (256 + 255) / 256 = 1 /\
  option_map (fun rw => (fst rw, length (filter is_hw (trace (snd rw)))))
    (ch32_write_flash (const_target 0) 2 0x08000040 zeros 256 (power_on tt))
  = Some (false, 0%nat) /\
  (512 + 255) / 256 = 2 /\
  option_map (fun rw => (fst rw, length (filter is_status (trace (snd rw)))))
    (ch32_write_flash (const_target 0) 2 0x08000000 (fun _ => Byte.x01) 512 (power_on tt))
  = Some (false, 1%nat).
Proof. repeat split; vm_compute; reflexivity. Qed.

(** With one byte of data the block program still takes 256: the bytes
    behind the image reach the target. *)
Example write_flash_reads_past_the_image :
  let data : buffer := fun k => if k =? 0 then Byte.x11 else Byte.x22 in
  option_map (fun rw => firstn 2 (filter (fun e => match e with
                                                  | EvWrite 0x04 0x22222211 => true
                                                  | EvWrite 0x04 0x22222222 => true
                                                  | _ => false
                                                  end) (trace (snd rw))))
    (ch32_write_flash (const_target 0) 1 0x08000000 data 1 (power_on tt))
  = Some [EvWrite 0x04 0x22222211; EvWrite 0x04 0x22222222].
Proof. vm_compute. reflexivity. Qed.

(** ** Orchestrator *)

(** Under a status register that never shows the halted bits the halt
    returns the integer 0, the value of C's [false]. *)
Lemma halt_timeout_returns_false {D} (hw : rvswd_transport D) (w : world D) :
  status_never hw 8 ->
  exists w', ch32_halt_microprocessor hw w = Some (0, w').
Proof.
  intros Hnever.
  destruct (ch32_halt_microprocessor_total hw w)
    as (r & w' & evs & E & _ & vs & v & _ & Hrd & _ & _ & -> & _).
  rewrite (never_reached hw 8 vs v Hnever Hrd) in E. eauto.
Qed.

(** So wherever [RVSWD_OK] is 0 a halt that timed out hands its caller the
    code of a halt that succeeded. *)
Lemma halt_timeout_looks_ok {D} (hw : rvswd_transport D) (w : world D) :
  RVSWD_OK hw = 0 ->
  status_never hw 8 ->
  exists w', ch32_halt_microprocessor hw w = Some (RVSWD_OK hw, w').
Proof.
  intros Hok Hnever. rewrite Hok. apply halt_timeout_returns_false. assumption.
Qed.

(** C8: a target that never reports the halted state, on a transport whose
    OK code is 0.  The halt times out after its six polls and logs the
    failure, yet [ch32_program] goes on: it unlocks, announces and writes
    the block, and only stops at the reset that times out in its turn.  The
    message for a failed halt is never logged. *)
Theorem program_continues_after_halt_timeout :
  option_map (fun rw => firstn 16 (trace (snd rw)))
    (ch32_program (const_target 0) 1 zeros 256 (power_on tt))
  = Some [EvInit; EvReset; EvWrite 0x10 0x80000001; EvWrite 0x10 0x80000001;
          EvRead 0x11 0; EvDelayMs 10; EvRead 0x11 0; EvDelayMs 10;
          EvRead 0x11 0; EvDelayMs 10; EvRead 0x11 0; EvDelayMs 10;
          EvRead 0x11 0; EvDelayMs 10; EvRead 0x11 0;
          EvLog (LogHaltFailed 0)] /\
  option_map (fun rw => filter (fun e => is_log e || is_status e) (trace (snd rw)))
    (ch32_program (const_target 0) 1 zeros 256 (power_on tt))
  = Some [EvLog (LogHaltFailed 0);
          EvLog (LogCtlrBeforeUnlock 0); EvLog (LogCtlrAfterUnlock 0);
          EvLog (LogUnlock true);
          EvStatus (WritingAt 0x08000000) 0 256;
          EvLog LogResetFailed; EvLog LogFailedToResetAndRun] /\
  option_map (fun rw => length (filter is_write (skipn 16 (trace (snd rw)))))
    (ch32_program (const_target 0) 1 zeros 256 (power_on tt))
  = Some 2626%nat.
Proof. repeat split; vm_compute; reflexivity. Qed.

(** The steps that do hand their failure on end the run: a dead link stops
    it after [rvswd_init], a controller that stays locked after the unlock. *)
Example program_stops_at_init :
  option_map (fun rw => trace (snd rw))
    (ch32_program dead_link 1 zeros 256 (power_on tt))
  = Some [EvInit; EvLog (LogInitError 1)].
Proof. reflexivity. Qed.

Example program_stops_at_unlock :
  option_map (fun rw => filter (fun e => is_log e || is_status e) (trace (snd rw)))
    (ch32_program (const_target 0x380) 1 zeros 256 (power_on tt))
  = Some [EvLog LogHalted;
          EvLog (LogCtlrBeforeUnlock 0x380); EvLog (LogCtlrAfterUnlock 0x380);
          EvLog (LogUnlock false); EvLog LogFailedToUnlock].
Proof. vm_compute. reflexivity. Qed.

(** ** End to end on the simulated target *)

(** A 512-byte image: halt, unlock, two blocks announced as 0 and 256 of
    512, reset and run; afterwards the flash holds the image. *)
Example program_end_to_end :
  option_map (fun rw =>
      (filter (fun e => is_log e || is_status e) (trace (snd rw)),
       sim_words (dev (snd rw)) 0x08000000 128))
    (ch32_program sim_target 2 test_image 512 (power_on sim_reset))
  = Some ([EvLog LogHalted;
           EvLog (LogCtlrBeforeUnlock 0x8080); EvLog (LogCtlrAfterUnlock 0);
           EvLog (LogUnlock true);
           EvStatus (WritingAt 0x08000000) 0 512;
           EvStatus (WritingAt 0x08000100) 256 512;
           EvLog LogOkay],
          words_of (load_bytes test_image 512) 128).
Proof. vm_compute. reflexivity. Qed.

(** A block erase on the unlocked simulated target leaves the erased
    pattern in all 64 words of the block. *)
Example erase_block_on_sim :
  option_map (fun rw => (fst rw, sim_words (dev (snd rw)) 0x08000100 64))
    (bind (ch32_unlock_flash sim_target)
          (fun _ => ch32_erase_flash_block sim_target 0 0x08000100)
          (power_on sim_reset))
  = Some (true, repeat 0xE339E339 64).
Proof. vm_compute. reflexivity. Qed.

(** * Further properties *)

(** ** CPU control: every run *)

Lemma not_reached_all (shift : Z) (vs : list Z) :
  Forall (fun x => (Z.land (Z.shiftr x shift) 3 =? 3) = false) vs ->
  Forall (fun x => Z.land (Z.shiftr x shift) 3 <> 3) vs.
Proof.
  intros H. eapply Forall_impl; [|exact H]. cbv beta. intros x Hx.
  apply Z.eqb_neq. exact Hx.
Qed.

(** X1: the halt returns from every state.  It polls until the status
    register shows bits [9:8] = 0b11 and at most six times; the values [vs]
    polled before the last one [v] did not show them.  If [v] shows them it
    clears the halt request with one more write and returns [RVSWD_OK];
    otherwise it has polled six times, writes nothing more and returns 0. *)
Theorem halt_outcome {D} (hw : rvswd_transport D) (w : world D) :
  exists vs v w',
    ch32_halt_microprocessor hw w
    = Some (if Z.land (Z.shiftr v 8) 3 =? 3 then RVSWD_OK hw else 0, w') /\
    Forall (fun x => Z.land (Z.shiftr x 8) 3 <> 3) vs /\
    (length vs <= 5)%nat /\
    (Z.land (Z.shiftr v 8) 3 = 3 \/ length vs = 5%nat) /\
    trace w' = trace w
               ++ dmcontrol_writes [0x80000001; 0x80000001]
               ++ poll_events (vs ++ [v])
               ++ (if Z.land (Z.shiftr v 8) 3 =? 3
                   then [EvWrite 0x10 0x00000001; EvLog LogHalted]
                   else [EvLog (LogHaltFailed v)]).
Proof.
  destruct (ch32_halt_microprocessor_total hw w)
    as (r & w' & evs & E & Et & vs & v & Hvs & _ & Hlen & Hfull & -> & ->).
  exists vs, v, w'. cbv zeta in Hfull.
  split; [exact E|]. split; [apply not_reached_all; assumption|].
  split; [exact Hlen|]. split; [|exact Et].
  destruct (Z.eqb_spec (Z.land (Z.shiftr v 8) 3) 3); [left; assumption|].
  right. apply Hfull. reflexivity.
Qed.

(** X2: the resume returns from every state.  It polls until the status
    register shows bits [11:10] = 0b11 and at most six times, writes nothing
    after its four control writes, and returns [RVSWD_OK] exactly when the
    last value polled shows those bits. *)
Theorem resume_outcome {D} (hw : rvswd_transport D) (w : world D) :
  exists vs v w',
    ch32_resume_microprocessor hw w
    = Some (if Z.land (Z.shiftr v 10) 3 =? 3 then RVSWD_OK hw else RVSWD_FAIL hw, w') /\
    Forall (fun x => Z.land (Z.shiftr x 10) 3 <> 3) vs /\
    (length vs <= 5)%nat /\
    (Z.land (Z.shiftr v 10) 3 = 3 \/ length vs = 5%nat) /\
    trace w' = trace w
               ++ dmcontrol_writes [0x80000001; 0x80000001; 0x00000001; 0x40000001]
               ++ poll_events (vs ++ [v])
               ++ (if Z.land (Z.shiftr v 10) 3 =? 3 then []
                   else [EvLog (LogResumeFailed v)]).
Proof.
  destruct (ch32_resume_microprocessor_total hw w)
    as (r & w' & evs & E & Et & vs & v & Hvs & _ & Hlen & Hfull & -> & ->).
  exists vs, v, w'. cbv zeta in Hfull.
  split; [exact E|]. split; [apply not_reached_all; assumption|].
  split; [exact Hlen|]. split; [|exact Et].
  destruct (Z.eqb_spec (Z.land (Z.shiftr v 10) 3) 3); [left; assumption|].
  right. apply Hfull. reflexivity.
Qed.

(** X3: the reset returns from every state.  It polls until the status
    register shows bits [19:18] = 0b11 and at most six times.  If the last
    value polled shows them it acknowledges the reset with three control
    writes, each followed by a delay of 10 ms, and returns [RVSWD_OK];
    otherwise it writes nothing more and returns [RVSWD_FAIL]. *)
Theorem reset_and_run_outcome {D} (hw : rvswd_transport D) (w : world D) :
  exists vs v w',
    ch32_reset_microprocessor_and_run hw w
    = Some (if Z.land (Z.shiftr v 18) 3 =? 3 then RVSWD_OK hw else RVSWD_FAIL hw, w') /\
    Forall (fun x => Z.land (Z.shiftr x 18) 3 <> 3) vs /\
    (length vs <= 5)%nat /\
    (Z.land (Z.shiftr v 18) 3 = 3 \/ length vs = 5%nat) /\
    trace w' = trace w
               ++ dmcontrol_writes [0x80000001; 0x80000001; 0x00000001; 0x00000003]
               ++ poll_events (vs ++ [v])
               ++ (if Z.land (Z.shiftr v 18) 3 =? 3
                   then [EvWrite 0x10 0x00000001; EvDelayMs 10;
                         EvWrite 0x10 0x10000001; EvDelayMs 10;
                         EvWrite 0x10 0x00000001; EvDelayMs 10]
                   else [EvLog LogResetFailed]).
Proof.
  destruct (ch32_reset_microprocessor_and_run_total hw w)
    as (r & w' & evs & E & Et & vs & v & Hvs & _ & Hlen & Hfull & -> & ->).
  exists vs, v, w'. cbv zeta in Hfull.
  split; [exact E|]. split; [apply not_reached_all; assumption|].
  split; [exact Hlen|]. split; [|exact Et].
  destruct (Z.eqb_spec (Z.land (Z.shiftr v 18) 3) 3); [left; assumption|].
  right. apply Hfull. reflexivity.
Qed.

(** ** Abstract commands: the command word *)

Lemma regno_high_bits (regno n : Z) :
  0 <= regno < 2 ^ 16 -> 16 <= n -> Z.testbit regno n = false.
Proof.
  intros Hr Hn. destruct (Z.eq_dec regno 0) as [->|Hnz].
  - apply Z.testbit_0_l.
  - apply Z.bits_above_log2; [lia|].
    assert (Z.log2 regno < 16) by (apply Z.log2_lt_pow2; lia). lia.
Qed.

Lemma regno_low_field (regno c : Z) :
  0 <= regno < 2 ^ 16 -> Z.land c 0xFFFF = 0 -> Z.land (Z.lor regno c) 0xFFFF = regno.
Proof.
  intros Hr Hc. rewrite Z.land_lor_distr_l, Hc, Z.lor_0_r.
  change 0xFFFF with (Z.ones 16). rewrite Z.land_ones by lia.
  apply Z.mod_small. assumption.
Qed.

Lemma regno_shifted_out (regno c n : Z) :
  0 <= regno < 2 ^ 16 -> 16 <= n ->
  Z.shiftr (Z.lor regno c) n = Z.shiftr c n.
Proof.
  intros Hr Hn. rewrite Z.shiftr_lor.
  replace (Z.shiftr regno n) with 0; [reflexivity|].
  symmetry. rewrite Z.shiftr_div_pow2 by lia. apply Z.div_small.
  assert (2 ^ 16 <= 2 ^ n) by (apply Z.pow_le_mono_r; lia). lia.
Qed.

(** X4: for a register number that fits 16 bits, the register write stages
    the value in data register 0 and then issues a command word, and the
    register read issues a command word and then reads data register 0;
    either command word carries the register number in bits [15:0], the
    direction in bit 16 (set for a write), the transfer bit 17 set, the
    postexec bit 18 clear, access size 2 in bits [22:20] and command type 0
    in bits [31:24]. *)
Theorem access_register_command {D} (hw : rvswd_transport D)
    (regno value : Z) (w : world D) :
  0 <= regno < 2 ^ 16 ->
  exists cw cr v w1 w2,
    ch32_write_cpu_reg hw regno value w = Some (true, w1) /\
    trace w1 = trace w ++ [EvWrite 0x04 value; EvWrite 0x17 cw] /\
    ch32_read_cpu_reg hw regno w = Some ((true, v), w2) /\
    trace w2 = trace w ++ [EvWrite 0x17 cr; EvRead 0x04 v] /\
    (Z.land cw 0xFFFF = regno /\ Z.testbit cw 16 = true /\ Z.testbit cw 17 = true /\
     Z.testbit cw 18 = false /\ Z.land (Z.shiftr cw 20) 7 = 2 /\ Z.shiftr cw 24 = 0) /\
    (Z.land cr 0xFFFF = regno /\ Z.testbit cr 16 = false /\ Z.testbit cr 17 = true /\
     Z.testbit cr 18 = false /\ Z.land (Z.shiftr cr 20) 7 = 2 /\ Z.shiftr cr 24 = 0).
Proof.
  intros Hr.
  destruct (ch32_write_cpu_reg_total hw regno value w)
    as (r1 & w1 & e1 & E1 & Et1 & -> & ->).
  destruct (ch32_read_cpu_reg_total hw regno w)
    as ([r2 v] & w2 & e2 & E2 & Et2 & Hr2 & He2 & _).
  simpl in Hr2, He2. subst r2 e2.
  exists (Z.lor regno 0x00230000), (Z.lor regno 0x00220000), v, w1, w2.
  split; [exact E1|]. split; [exact Et1|]. split; [exact E2|]. split; [exact Et2|].
  split.
  - split; [apply regno_low_field; [assumption | reflexivity]|].
    rewrite !Z.lor_spec.
    rewrite (regno_high_bits regno 16), (regno_high_bits regno 17),
      (regno_high_bits regno 18) by lia.
    rewrite (regno_shifted_out regno _ 20), (regno_shifted_out regno _ 24) by lia.
    repeat split.
  - split; [apply regno_low_field; [assumption | reflexivity]|].
    rewrite !Z.lor_spec.
    rewrite (regno_high_bits regno 16), (regno_high_bits regno 17),
      (regno_high_bits regno 18) by lia.
    rewrite (regno_shifted_out regno _ 20), (regno_shifted_out regno _ 24) by lia.
    repeat split.
Qed.

Lemma access_register_command_witness :
  exists cw cr v w1 w2,
    ch32_write_cpu_reg (const_target 7) 0x100A 0xDEADBEEF (power_on tt) = Some (true, w1) /\
    trace w1 = trace (power_on tt) ++ [EvWrite 0x04 0xDEADBEEF; EvWrite 0x17 cw] /\
    ch32_read_cpu_reg (const_target 7) 0x100A (power_on tt) = Some ((true, v), w2) /\
    trace w2 = trace (power_on tt) ++ [EvWrite 0x17 cr; EvRead 0x04 v] /\
    (Z.land cw 0xFFFF = 0x100A /\ Z.testbit cw 16 = true /\ Z.testbit cw 17 = true /\
     Z.testbit cw 18 = false /\ Z.land (Z.shiftr cw 20) 7 = 2 /\ Z.shiftr cw 24 = 0) /\
    (Z.land cr 0xFFFF = 0x100A /\ Z.testbit cr 16 = false /\ Z.testbit cr 17 = true /\
     Z.testbit cr 18 = false /\ Z.land (Z.shiftr cr 20) 7 = 2 /\ Z.shiftr cr 24 = 0).
Proof.
  apply (access_register_command (const_target 7) 0x100A 0xDEADBEEF (power_on tt)).
  lia.
Defined.

(** ** Memory bridge: the traffic of one word *)

(** X5: a memory read is twelve register writes and one register read: the
    address goes to x11 through data register 0, the load snippet and seven
    zero words go to the program buffer, the buffer is run, x10 is fetched
    into data register 0 and read; what that one read stored is the value
    handed back.  A memory write is thirteen register writes and no read:
    value to x10, address to x11, the store snippet, run. *)
Theorem memory_word_traffic {D} (hw : rvswd_transport D)
    (address value : Z) (w : world D) :
  (exists v w',
     ch32_read_memory_word hw address w = Some ((true, v), w') /\
     0 <= v < 2 ^ 32 /\
     trace w' = trace w
       ++ [EvWrite 0x04 address; EvWrite 0x17 0x0023100B;
           EvWrite 0x20 0x90024188; EvWrite 0x21 0; EvWrite 0x22 0; EvWrite 0x23 0;
           EvWrite 0x24 0; EvWrite 0x25 0; EvWrite 0x26 0; EvWrite 0x27 0;
           EvWrite 0x17 0x00240000;
           EvWrite 0x17 0x0022100A; EvRead 0x04 v]) /\
  (exists w',
     ch32_write_memory_word hw address value w = Some (true, w') /\
     trace w' = trace w
       ++ [EvWrite 0x04 value; EvWrite 0x17 0x0023100A;
           EvWrite 0x04 address; EvWrite 0x17 0x0023100B;
           EvWrite 0x20 0x9002c188; EvWrite 0x21 0; EvWrite 0x22 0; EvWrite 0x23 0;
           EvWrite 0x24 0; EvWrite 0x25 0; EvWrite 0x26 0; EvWrite 0x27 0;
           EvWrite 0x17 0x00240000]).
Proof.
  split.
  - destruct (ch32_read_memory_word_total hw address w)
      as ([r v] & w' & evs & E & Et & Hr & -> & Hv).
    simpl in Hr, Hv. subst r. exists v, w'. repeat split; try apply Hv; assumption.
  - destruct (ch32_write_memory_word_total hw address value w)
      as (r & w' & evs & E & Et & -> & ->).
    exists w'. split; assumption.
Qed.

(** ** The waits of the flash programmer *)

Section Waits.

Context {D : Type} (hw : rvswd_transport D).

Lemma ch32_read_cpu_reg_readable (regno : Z) :
  total (ch32_read_cpu_reg hw regno) (fun r _ => readable hw 0x04 (snd r)).
Proof.
  unfold ch32_read_cpu_reg.
  tstep do_write_total. tstep do_read_total.
  apply total_ret. simpl. apply H0.
Qed.

Lemma ch32_read_memory_word_readable (address : Z) :
  total (ch32_read_memory_word hw address) (fun r _ => readable hw 0x04 (snd r)).
Proof.
  unfold ch32_read_memory_word.
  tstep ch32_write_cpu_reg_total. tstep run_readmem_total.
  tstep ch32_read_cpu_reg_readable.
  apply total_ret. simpl. exact H1.
Qed.





(** A wait on a controller that stays busy has no end. *)
Lemma wait_flash_loop_hangs (fuel : nat) (value : Z) (w : world D) :
  always_busy hw 1 -> Z.land value 1 <> 0 -> wait_flash_loop hw fuel value w = None.
Proof.
  intros Hbusy. revert value w.
  assert (Htest : forall value, Z.land value 1 <> 0 ->
                  negb (Z.land value CH32_FLASH_STATR_BUSY =? 0) = true).
  { intros value Hv. apply negb_true_iff, Z.eqb_neq. exact Hv. }
  induction fuel as [|fuel IH]; intros value w Hv;
    simpl wait_flash_loop; rewrite (Htest value Hv); [reflexivity|].
  unfold bind, vTaskDelay, emit.
  destruct (ch32_read_memory_word_readable CH32_FLASH_STATR
              {| dev := dev w; trace := trace w ++ [EvDelayTicks 1] |})
    as (r & w' & evs & E & _ & Hrd).
  rewrite E. apply IH. apply Hbusy. exact Hrd.
Qed.

Lemma wait_flash_write_loop_hangs (fuel : nat) (value : Z) (w : world D) :
  always_busy hw 2 -> Z.land value 2 <> 0 -> wait_flash_write_loop hw fuel value w = None.
Proof.
  intros Hbusy. revert value w.
  assert (Htest : forall value, Z.land value 2 <> 0 ->
                  negb (Z.land value CH32_FLASH_STATR_WRBUSY =? 0) = true).
  { intros value Hv. apply negb_true_iff, Z.eqb_neq. exact Hv. }
  induction fuel as [|fuel IH]; intros value w Hv;
    simpl wait_flash_write_loop; rewrite (Htest value Hv); [reflexivity|].
  unfold bind.
  destruct (ch32_read_memory_word_readable CH32_FLASH_STATR w)
    as (r & w' & evs & E & _ & Hrd).
  rewrite E. apply IH. apply Hbusy. exact Hrd.
Qed.

Lemma ch32_wait_flash_hangs (fuel : nat) (w : world D) :
  always_busy hw 1 -> ch32_wait_flash hw fuel w = None.
Proof.
  intros Hbusy. unfold ch32_wait_flash, bind.
  destruct (ch32_read_memory_word_readable CH32_FLASH_STATR w)
    as (r & w' & evs & E & _ & Hrd).
  rewrite E. apply wait_flash_loop_hangs; [assumption|]. apply Hbusy. exact Hrd.
Qed.

Lemma ch32_wait_flash_write_hangs (fuel : nat) (w : world D) :
  always_busy hw 2 -> ch32_wait_flash_write hw fuel w = None.
Proof.
  intros Hbusy. unfold ch32_wait_flash_write, bind.
  destruct (ch32_read_memory_word_readable CH32_FLASH_STATR w)
    as (r & w' & evs & E & _ & Hrd).
  rewrite E. apply wait_flash_write_loop_hangs; [assumption|]. apply Hbusy. exact Hrd.
Qed.

End Waits.



Section NoTimeout.

Context {D : Type} (hw : rvswd_transport D).

Lemma erase_hangs (fuel : nat) (addr : Z) (w : world D) :
  always_busy hw 1 -> addr mod 256 = 0 -> ch32_erase_flash_block hw fuel addr w = None.
Proof.
  intros Hbusy Hal. unfold ch32_erase_flash_block.
  apply Z.eqb_eq in Hal. rewrite Hal. cbn [negb]. unfold bind at 1.
  rewrite ch32_wait_flash_hangs by assumption. reflexivity.
Qed.

Lemma program_hangs_busy (fuel : nat) (addr : Z) (data : buffer) (w : world D) :
  always_busy hw 1 -> addr mod 256 = 0 ->
  ch32_write_flash_block hw fuel addr data w = None.
Proof.
  intros Hbusy Hal. unfold ch32_write_flash_block.
  apply Z.eqb_eq in Hal. rewrite Hal. cbn [negb]. unfold bind at 1.
  rewrite ch32_wait_flash_hangs by assumption. reflexivity.
Qed.

(** The word loop of a block program stops at its first word when the
    write-busy bit never clears. *)
Lemma program_hangs_write_busy (fuel : nat) (addr : Z) (data : buffer) (w : world D) :
  always_busy hw 2 -> addr mod 256 = 0 ->
  ch32_write_flash_block hw fuel addr data w = None.
Proof.
  intros Hbusy Hal. unfold ch32_write_flash_block.
  apply Z.eqb_eq in Hal. rewrite Hal. cbn [negb]. cbv zeta.
  unfold bind at 1. destruct (ch32_wait_flash hw fuel w) as [[[] w1]|]; [|reflexivity].
  unfold bind at 1.
  destruct (ch32_write_memory_word_total hw CH32_FLASH_CTLR CH32_FLASH_CTLR_FTPG w1)
    as (r2 & w2 & e2 & E2 & _). rewrite E2.
  unfold bind at 1.
  destruct (ch32_write_memory_word_total hw CH32_FLASH_ADDR addr w2)
    as (r3 & w3 & e3 & E3 & _). rewrite E3.
  unfold bind at 1.
  change (seq 0 64) with (0%nat :: seq 1 63). cbn [for_each].
  unfold bind at 1. unfold bind at 1.
  destruct (ch32_write_memory_word_total hw (wrap32 (addr + Z.of_nat 0 * 4))
              (word_at (load_bytes data 256) 0) w3)
    as (r4 & w4 & e4 & E4 & _). rewrite E4.
  rewrite ch32_wait_flash_write_hangs by assumption. reflexivity.
Qed.

End NoTimeout.

(** X7: the waits have no timeout.  On a target whose flash status, as the
    memory bridge reads it, always shows the busy bit, [ch32_wait_flash]
    does not return however many turns its loop is given, and neither do
    the block erase and the block program at an aligned address; when it
    always shows the write-busy bit, [ch32_wait_flash_write] and the block
    program do not return. *)
Theorem flash_waits_never_time_out {D} (hw : rvswd_transport D)
    (fuel : nat) (addr : Z) (data : buffer) (w : world D) :
  addr mod 256 = 0 ->
  (always_busy hw 1 ->
   ch32_wait_flash hw fuel w = None /\
   ch32_erase_flash_block hw fuel addr w = None /\
   ch32_write_flash_block hw fuel addr data w = None) /\
  (always_busy hw 2 ->
   ch32_wait_flash_write hw fuel w = None /\
   ch32_write_flash_block hw fuel addr data w = None).
Proof.
  intros Hal. split; intros Hbusy.
  - split; [apply ch32_wait_flash_hangs; assumption|].
    split; [apply erase_hangs; assumption | apply program_hangs_busy; assumption].
  - split; [apply ch32_wait_flash_write_hangs; assumption|].
    apply program_hangs_write_busy; assumption.
Qed.

Lemma const_target_always_busy (v mask : Z) :
  Z.land (wrap32 v) mask <> 0 -> always_busy (const_target v) mask.
Proof. intros H x [d <-]. exact H. Qed.

Lemma flash_waits_never_time_out_witness :
  (always_busy (const_target 3) 1 /\ always_busy (const_target 3) 2) /\
  (ch32_wait_flash (const_target 3) 1000 (power_on tt) = None /\
   ch32_erase_flash_block (const_target 3) 1000 0x08000000 (power_on tt) = None /\
   ch32_write_flash_block (const_target 3) 1000 0x08000000 zeros (power_on tt) = None) /\
  (ch32_wait_flash_write (const_target 3) 1000 (power_on tt) = None /\
   ch32_write_flash_block (const_target 3) 1000 0x08000000 zeros (power_on tt) = None).
Proof.
  assert (H1 : always_busy (const_target 3) 1)
    by (apply const_target_always_busy; vm_compute; discriminate).
  assert (H2 : always_busy (const_target 3) 2)
    by (apply const_target_always_busy; vm_compute; discriminate).
  destruct (flash_waits_never_time_out (const_target 3) 1000 0x08000000 zeros
              (power_on tt) eq_refl) as [Hbusy Hwrite].
  split; [split; assumption|]. split; [exact (Hbusy H1) | exact (Hwrite H2)].
Defined.

(** X8: at an aligned address a block erase that returns has returned
    [true], having waited, selected fast erase, written the address, started
    the erase, waited again and cleared the control register, and it reads
    nothing back from the block; it returns whenever the waits do. *)
Theorem erase_block_outcome {D} (hw : rvswd_transport D)
    (fuel : nat) (addr : Z) (w : world D) :
  addr mod 256 = 0 ->
  (forall r w',
     ch32_erase_flash_block hw fuel addr w = Some (r, w') ->
     r = true /\
     exists p1 p2, trace w' = trace w ++ erase_events addr p1 p2) /\
  (waits_return hw fuel ->
   exists w', ch32_erase_flash_block hw fuel addr w = Some (true, w')).
Proof.
  intros Hal.
  assert (Hpart : forall r w',
            ch32_erase_flash_block hw fuel addr w = Some (r, w') ->
            r = true /\ exists p1 p2, trace w' = trace w ++ erase_events addr p1 p2).
  { intros r w' E.
    destruct (ch32_erase_flash_block_emits hw fuel addr Hal _ _ _ E)
      as (evs & Et & -> & p1 & p2 & ->). eauto. }
  split; [exact Hpart|].
  intros Hwaits.
  pose proof (returns_erase_flash_block hw fuel Hwaits addr w) as Hret.
  destruct (ch32_erase_flash_block hw fuel addr w) as [[r w']|] eqn:E; [|congruence].
  destruct (Hpart r w' eq_refl) as [-> _]. eauto.
Qed.

Lemma erase_block_outcome_witness :
  exists w' p1 p2,
    ch32_erase_flash_block (const_target 0) 0 0x08000100 (power_on tt) = Some (true, w') /\
    trace w' = trace (power_on tt) ++ erase_events 0x08000100 p1 p2.
Proof.
  destruct (erase_block_outcome (const_target 0) 0 0x08000100 (power_on tt) eq_refl)
    as [Hpart Htotal].
  destruct (Htotal (const_target_waits_return 0)) as (w' & E).
  destruct (Hpart true w' E) as (_ & p1 & p2 & Et).
  exists w', p1, p2. split; assumption.
Defined.

(** ** The write loop: how it fails *)

Lemma wrap32_mod_256 (z : Z) : wrap32 z mod 256 = z mod 256.
Proof.
  unfold wrap32. apply Z.mod_mod_divide. exists (2 ^ 24). reflexivity.
Qed.

(** X9: a base address that passes the 64-byte test of the write loop but
    is not a multiple of 256 cannot be written: with any data at all the
    first chunk is announced, its erase is refused for misalignment, the
    failure is logged and [false] is returned, with no transport access and
    the target untouched. *)
Theorem write_flash_base_not_block_aligned {D} (hw : rvswd_transport D)
    (fuel : nat) (addr : Z) (data : buffer) (data_len : Z) (w : world D) :
  addr mod 64 = 0 ->
  addr mod 256 <> 0 ->
  0 < data_len ->
  (1 <= fuel)%nat ->
  ch32_write_flash hw fuel addr data data_len w
  = Some (false,
          {| dev := dev w;
             trace := trace w
                      ++ [EvDelayTicks 0;
                          EvStatus (WritingAt (wrap32 addr)) 0 (to_int data_len);
                          EvLog (LogEraseFailed (wrap32 addr))] |}).
Proof.
  intros H64 H256 Hlen Hfuel. unfold ch32_write_flash.
  apply Z.eqb_eq in H64. rewrite H64. cbn [negb].
  destruct fuel as [|n]; [lia|]. cbn [write_flash_loop].
  assert (Hmore : (0 <? data_len) = true) by (apply Z.ltb_lt; assumption).
  rewrite Hmore, Z.add_0_r.
  change (to_int 0) with 0.
  unfold bind at 1. unfold vTaskDelay, emit at 1.
  unfold bind at 1. unfold ch32_status_callback, emit at 1.
  unfold bind at 1.
  rewrite erase_misaligned by (rewrite wrap32_mod_256; assumption).
  cbn [negb]. unfold bind, log, emit. cbn [dev trace].
  rewrite <- !app_assoc. reflexivity.
Qed.

Lemma write_flash_base_not_block_aligned_witness :
  ch32_write_flash (const_target 0) 1 0x080000C0 zeros 1024 (power_on tt)
  = Some (false,
          {| dev := tt;
             trace := [] ++ [EvDelayTicks 0;
                             EvStatus (WritingAt (wrap32 0x080000C0)) 0 (to_int 1024);
                             EvLog (LogEraseFailed (wrap32 0x080000C0))] |}).
Proof.
  apply (write_flash_base_not_block_aligned (const_target 0) 1 0x080000C0 zeros 1024
           (power_on tt)).
  - reflexivity.
  - vm_compute. discriminate.
  - lia.
  - lia.
Defined.

(** ** The results of the transport's reads and writes *)

Section SameRun.

Context {D : Type}.

Lemma same_run_refl {A} (m : M D A) : same_run m m.
Proof. intros w. reflexivity. Qed.

Lemma same_run_bind {A B} (m1 m2 : M D A) (k1 k2 : A -> M D B) :
  same_run m1 m2 -> (forall a, same_run (k1 a) (k2 a)) ->
  same_run (bind m1 k1) (bind m2 k2).
Proof.
  intros Hm Hk w. unfold bind. rewrite (Hm w).
  destruct (m2 w) as [[a w']|]; [apply Hk | reflexivity].
Qed.

Lemma same_run_for_each (indices : list nat) (body1 body2 : nat -> M D unit) :
  (forall i, same_run (body1 i) (body2 i)) ->
  same_run (for_each indices body1) (for_each indices body2).
Proof.
  intros Hbody. induction indices as [|i rest IH]; cbn [for_each].
  - apply same_run_refl.
  - apply same_run_bind; [apply Hbody | intros _; exact IH].
Qed.

Lemma same_run_for_collect (indices : list nat) (body1 body2 : nat -> M D Z) :
  (forall i, same_run (body1 i) (body2 i)) ->
  same_run (for_collect indices body1) (for_collect indices body2).
Proof.
  intros Hbody. induction indices as [|i rest IH]; cbn [for_collect].
  - apply same_run_refl.
  - apply same_run_bind; [apply Hbody | intros v].
    apply same_run_bind; [exact IH | intros vs; apply same_run_refl].
Qed.

Variables hw1 hw2 : rvswd_transport D.
Hypothesis Hsame : same_link hw1 hw2.

Lemma do_write_ignored {A} (reg value : Z) (k1 k2 : M D A) :
  same_run k1 k2 ->
  same_run (do_write hw1 reg value ;; k1) (do_write hw2 reg value ;; k2).
Proof.
  intros Hk w. unfold bind, do_write.
  destruct Hsame as (_ & _ & _ & _ & Hw & _). specialize (Hw reg value (dev w)).
  destruct (rvswd_write hw1 reg value (dev w)) as [res1 d1].
  destruct (rvswd_write hw2 reg value (dev w)) as [res2 d2].
  simpl in Hw. subst d2. apply Hk.
Qed.

Lemma do_read_ignored {A} (reg : Z) (k1 k2 : Z * Z -> M D A) :
  (forall rv1 rv2, snd rv1 = snd rv2 -> same_run (k1 rv1) (k2 rv2)) ->
  same_run (bind (do_read hw1 reg) k1) (bind (do_read hw2 reg) k2).
Proof.
  intros Hk w. unfold bind, do_read.
  destruct Hsame as (_ & _ & _ & _ & _ & Hr). destruct (Hr reg (dev w)) as [Hv Hd].
  destruct (rvswd_read hw1 reg (dev w)) as [[res1 v1] d1].
  destruct (rvswd_read hw2 reg (dev w)) as [[res2 v2] d2].
  simpl in Hv, Hd. subst v2 d2. apply Hk. reflexivity.
Qed.

Lemma same_poll_dmstatus (reached : Z -> bool) (on_timeout : Z -> M D unit)
    (timeout : nat) :
  same_run (poll_dmstatus hw1 reached on_timeout timeout)
           (poll_dmstatus hw2 reached on_timeout timeout).
Proof.
  induction timeout as [|timeout IH]; cbn [poll_dmstatus];
    apply do_read_ignored; intros rv1 rv2 Hv; cbv zeta; rewrite Hv;
    destruct (reached (snd rv2)); try apply same_run_refl.
  apply same_run_bind; [apply same_run_refl | intros _; exact IH].
Qed.

Lemma same_halt :
  same_run (ch32_halt_microprocessor hw1) (ch32_halt_microprocessor hw2).
Proof.
  unfold ch32_halt_microprocessor. do 2 apply do_write_ignored.
  apply same_run_bind; [apply same_poll_dmstatus | intros halted].
  destruct halted; [|apply same_run_refl].
  apply do_write_ignored. destruct Hsame as (-> & _). apply same_run_refl.
Qed.

Lemma same_resume :
  same_run (ch32_resume_microprocessor hw1) (ch32_resume_microprocessor hw2).
Proof.
  unfold ch32_resume_microprocessor. do 4 apply do_write_ignored.
  apply same_run_bind; [apply same_poll_dmstatus | intros resumed].
  destruct Hsame as (-> & -> & _). apply same_run_refl.
Qed.

Lemma same_reset :
  same_run (ch32_reset_microprocessor_and_run hw1)
           (ch32_reset_microprocessor_and_run hw2).
Proof.
  unfold ch32_reset_microprocessor_and_run. do 4 apply do_write_ignored.
  apply same_run_bind; [apply same_poll_dmstatus | intros was_reset].
  destruct Hsame as (Hok & Hfail & _). rewrite Hok, Hfail.
  destruct was_reset; [|apply same_run_refl].
  do 3 (apply do_write_ignored;
        apply same_run_bind; [apply same_run_refl | intros _]).
  apply same_run_refl.
Qed.

Lemma same_write_cpu_reg (regno value : Z) :
  same_run (ch32_write_cpu_reg hw1 regno value) (ch32_write_cpu_reg hw2 regno value).
Proof.
  unfold ch32_write_cpu_reg. cbv zeta. do 2 apply do_write_ignored. apply same_run_refl.
Qed.

Lemma same_read_cpu_reg (regno : Z) :
  same_run (ch32_read_cpu_reg hw1 regno) (ch32_read_cpu_reg hw2 regno).
Proof.
  unfold ch32_read_cpu_reg. cbv zeta. apply do_write_ignored.
  apply do_read_ignored. intros rv1 rv2 Hv. rewrite Hv. apply same_run_refl.
Qed.

Lemma same_run_debug_code (code : buffer) (code_size : Z) :
  same_run (ch32_run_debug_code hw1 code code_size)
           (ch32_run_debug_code hw2 code code_size).
Proof.
  unfold ch32_run_debug_code.
  destruct (code_size >? 8 * 4); [apply same_run_refl|].
  destruct (negb (Z.land code_size 1 =? 0)); [apply same_run_refl|].
  cbv zeta. apply same_run_bind.
  - apply same_run_for_each. intros i. apply do_write_ignored. apply same_run_refl.
  - intros _. apply do_write_ignored. apply same_run_refl.
Qed.

Lemma same_read_memory_word (address : Z) :
  same_run (ch32_read_memory_word hw1 address) (ch32_read_memory_word hw2 address).
Proof.
  unfold ch32_read_memory_word.
  apply same_run_bind; [apply same_write_cpu_reg | intros _].
  apply same_run_bind; [apply same_run_debug_code | intros _].
  apply same_run_bind; [apply same_read_cpu_reg | intros rv; apply same_run_refl].
Qed.

Lemma same_write_memory_word (address value : Z) :
  same_run (ch32_write_memory_word hw1 address value)
           (ch32_write_memory_word hw2 address value).
Proof.
  unfold ch32_write_memory_word.
  do 2 (apply same_run_bind; [apply same_write_cpu_reg | intros _]).
  apply same_run_bind; [apply same_run_debug_code | intros _; apply same_run_refl].
Qed.

Lemma same_wait_flash (fuel : nat) :
  same_run (ch32_wait_flash hw1 fuel) (ch32_wait_flash hw2 fuel).
Proof.
  unfold ch32_wait_flash.
  apply same_run_bind; [apply same_read_memory_word | intros rv].
  generalize (snd rv). clear rv.
  induction fuel as [|fuel IH]; intros value; cbn [wait_flash_loop];
    destruct (negb (Z.land value CH32_FLASH_STATR_BUSY =? 0));
    try apply same_run_refl.
  apply same_run_bind; [apply same_run_refl | intros _].
  apply same_run_bind; [apply same_read_memory_word | intros rv; apply IH].
Qed.

Lemma same_wait_flash_write (fuel : nat) :
  same_run (ch32_wait_flash_write hw1 fuel) (ch32_wait_flash_write hw2 fuel).
Proof.
  unfold ch32_wait_flash_write.
  apply same_run_bind; [apply same_read_memory_word | intros rv].
  generalize (snd rv). clear rv.
  induction fuel as [|fuel IH]; intros value; cbn [wait_flash_write_loop];
    destruct (negb (Z.land value CH32_FLASH_STATR_WRBUSY =? 0));
    try apply same_run_refl.
  apply same_run_bind; [apply same_read_memory_word | intros rv; apply IH].
Qed.

Ltac same_step :=
  first [ apply same_run_bind; [apply same_write_memory_word | intros ?]
        | apply same_run_bind; [apply same_read_memory_word | intros ?]
        | apply same_run_bind; [apply same_wait_flash | intros ?]
        | apply same_run_bind; [apply same_wait_flash_write | intros ?]
        | apply same_run_bind; [apply same_run_refl | intros ?] ].

Lemma same_unlock : same_run (ch32_unlock_flash hw1) (ch32_unlock_flash hw2).
Proof.
  unfold ch32_unlock_flash. repeat same_step. apply same_run_refl.
Qed.

Lemma same_erase (fuel : nat) (addr : Z) :
  same_run (ch32_erase_flash_block hw1 fuel addr) (ch32_erase_flash_block hw2 fuel addr).
Proof.
  unfold ch32_erase_flash_block.
  destruct (negb (addr mod 256 =? 0)); [apply same_run_refl|].
  repeat same_step. apply same_run_refl.
Qed.

Lemma same_write_flash_block (fuel : nat) (addr : Z) (data : buffer) :
  same_run (ch32_write_flash_block hw1 fuel addr data)
           (ch32_write_flash_block hw2 fuel addr data).
Proof.
  unfold ch32_write_flash_block.
  destruct (negb (addr mod 256 =? 0)); [apply same_run_refl|].
  cbv zeta. do 3 same_step.
  apply same_run_bind.
  { apply same_run_for_each. intros i.
    apply same_run_bind; [apply same_write_memory_word | intros _].
    apply same_wait_flash_write. }
  intros _. do 4 same_step.
  apply same_run_bind.
  { apply same_run_for_collect. intros i.
    apply same_run_bind; [apply same_run_refl | intros _].
    apply same_run_bind; [apply same_read_memory_word | intros rv].
    apply same_run_refl. }
  intros rdata. apply same_run_refl.
Qed.

Lemma same_write_flash_loop (fuel n : nat) (addr : Z) (data : buffer) (data_len i : Z) :
  same_run (write_flash_loop hw1 fuel n addr data data_len i)
           (write_flash_loop hw2 fuel n addr data data_len i).
Proof.
  revert i. induction n as [|n IH]; intros i; cbn [write_flash_loop];
    destruct (i <? data_len); try apply same_run_refl.
  do 2 (apply same_run_bind; [apply same_run_refl | intros _]).
  apply same_run_bind; [apply same_erase | intros erased].
  destruct (negb erased); [apply same_run_refl|].
  apply same_run_bind; [apply same_write_flash_block | intros written].
  destruct (negb written); [apply same_run_refl | apply IH].
Qed.

Lemma same_write_flash (fuel : nat) (addr : Z) (data : buffer) (data_len : Z) :
  same_run (ch32_write_flash hw1 fuel addr data data_len)
           (ch32_write_flash hw2 fuel addr data data_len).
Proof.
  unfold ch32_write_flash.
  destruct (negb (addr mod 64 =? 0)); [apply same_run_refl|].
  apply same_write_flash_loop.
Qed.

Lemma same_program (fuel : nat) (firmware : buffer) (firmware_len : Z) :
  same_run (ch32_program hw1 fuel firmware firmware_len)
           (ch32_program hw2 fuel firmware firmware_len).
Proof.
  unfold ch32_program.
  destruct Hsame as (Hok & _ & Hinit & Hreset & _). rewrite Hok.
  apply same_run_bind.
  { intros w. unfold do_init. rewrite Hinit. reflexivity. }
  intros res. destruct (negb (res =? RVSWD_OK hw2)); [apply same_run_refl|].
  apply same_run_bind.
  { intros w. unfold do_reset. rewrite Hreset. reflexivity. }
  intros res'. destruct (negb (res' =? RVSWD_OK hw2)); [apply same_run_refl|].
  apply same_run_bind; [apply same_halt | intros res''].
  destruct (negb (res'' =? RVSWD_OK hw2)); [apply same_run_refl|].
  apply same_run_bind; [apply same_unlock | intros bool_res].
  apply same_run_bind; [apply same_run_refl | intros _].
  destruct (negb bool_res); [apply same_run_refl|].
  apply same_run_bind; [apply same_write_flash | intros bool_res'].
  destruct (negb bool_res'); [apply same_run_refl|].
  apply same_run_bind; [apply same_reset | intros res3].
  apply same_run_refl.
Qed.

End SameRun.

(** X10: nothing in the programmer looks at the result of [rvswd_write] or
    [rvswd_read].  Over two links to the same target that differ only in
    the result codes of those two calls, every operation, from the CPU
    control to the whole of [ch32_program], does the same from every state:
    same result, same traffic and log, same target state. *)
Theorem transport_results_ignored {D} (hw1 hw2 : rvswd_transport D)
    (fuel : nat) (addr : Z) (data : buffer) (data_len : Z) (w : world D) :
  same_link hw1 hw2 ->
  ch32_halt_microprocessor hw1 w = ch32_halt_microprocessor hw2 w /\
  ch32_resume_microprocessor hw1 w = ch32_resume_microprocessor hw2 w /\
  ch32_reset_microprocessor_and_run hw1 w = ch32_reset_microprocessor_and_run hw2 w /\
  ch32_unlock_flash hw1 w = ch32_unlock_flash hw2 w /\
  ch32_erase_flash_block hw1 fuel addr w = ch32_erase_flash_block hw2 fuel addr w /\
  ch32_write_flash_block hw1 fuel addr data w = ch32_write_flash_block hw2 fuel addr data w /\
  ch32_write_flash hw1 fuel addr data data_len w
  = ch32_write_flash hw2 fuel addr data data_len w /\
  ch32_program hw1 fuel data data_len w = ch32_program hw2 fuel data data_len w.
Proof.
  intros Hsame. repeat split.
  - apply same_halt; assumption.
  - apply same_resume; assumption.
  - apply same_reset; assumption.
  - apply same_unlock; assumption.
  - apply same_erase; assumption.
  - apply same_write_flash_block; assumption.
  - apply same_write_flash; assumption.
  - apply same_program; assumption.
Qed.

Lemma const_flaky_same_link (v : Z) : same_link (const_target v) (flaky_target v).
Proof. repeat split. Qed.

Lemma transport_results_ignored_witness :
  same_link (const_target 0) (flaky_target 0) /\
  ch32_unlock_flash (const_target 0) (power_on tt)
  = ch32_unlock_flash (flaky_target 0) (power_on tt) /\
  ch32_write_flash (const_target 0) 1 0x08000000 zeros 256 (power_on tt)
  = ch32_write_flash (flaky_target 0) 1 0x08000000 zeros 256 (power_on tt) /\
  ch32_program (const_target 0) 1 zeros 256 (power_on tt)
  = ch32_program (flaky_target 0) 1 zeros 256 (power_on tt).
Proof.
  pose proof (const_flaky_same_link 0) as Hsame.
  destruct (transport_results_ignored (const_target 0) (flaky_target 0) 1 0x08000000
              zeros 256 (power_on tt) Hsame)
    as (_ & _ & _ & Hunlock & _ & _ & Hwrite & Hprogram).
  split; [exact Hsame|]. split; [exact Hunlock|]. split; [exact Hwrite|]. exact Hprogram.
Defined.

(** The block write over the link whose every read and write fails: the
    failures go unseen and the block is reported written. *)
Example write_flash_over_failing_link :
  option_map fst (ch32_write_flash (flaky_target 0) 1 0x08000000 zeros 256 (power_on tt))
  = Some true.
Proof. vm_compute. reflexivity. Qed.

(** ** The default status callback *)

Lemma in_firstn {A} (x : A) (n : nat) (l : list A) : In x (firstn n l) -> In x l.
Proof.
  revert l. induction n as [|n IH]; intros [|y l] H; simpl in H; try contradiction.
  destruct H as [->|H]; [left; reflexivity | right; apply IH; assumption].
Qed.

Lemma in_offsets_from (start : Z) (count : nat) (offset : Z) :
  In offset (offsets_from start count) ->
  exists k, (k < count)%nat /\ offset = start + 256 * Z.of_nat k.
Proof.
  revert start. induction count as [|count IH]; intros start H; simpl in H;
    [contradiction|].
  destruct H as [<-|H].
  - exists 0%nat. split; lia.
  - destruct (IH _ H) as (k & Hk & ->). exists (S k). split; lia.
Qed.

(** Every chunk starts inside the image. *)
Lemma in_chunk_offsets (data_len offset : Z) :
  0 <= data_len -> In offset (chunk_offsets data_len) -> 0 <= offset < data_len.
Proof.
  intros Hlen Hin. apply in_offsets_from in Hin. destruct Hin as (k & Hk & ->).
  destruct (chunk_count_covers data_len Hlen) as [_ Hlast]. lia.
Qed.

Lemma default_status_percent_in_range (progress total : Z) :
  0 <= progress < total -> total <= 21474836 ->
  exists percent,
    default_status_percent progress total = Some percent /\ 0 <= percent < 100.
Proof.
  intros Hp Ht. unfold default_status_percent. cbv zeta.
  assert (H1 : (progress * 100 <? - 2 ^ 31) = false) by (apply Z.ltb_ge; lia).
  assert (H2 : (2 ^ 31 - 1 <? progress * 100) = false) by (apply Z.ltb_ge; lia).
  assert (H3 : (total =? 0) = false) by (apply Z.eqb_neq; lia).
  rewrite H1, H2, H3. cbn [orb].
  exists (Z.quot (progress * 100) total). split; [reflexivity|].
  rewrite Z.quot_div_nonneg by lia. split.
  - apply Z.div_pos; lia.
  - apply Z.div_lt_upper_bound; lia.
Qed.

(** X11: every call of the status callback made by the write loop carries
    the offset of a chunk as its progress and the length of the data as its
    total, with progress below total.  For an image of at most 21474836
    bytes the default callback's percentage, [progress * 100 / total] in
    [int], is therefore defined at every call (no overflow, no division by
    zero) and lies between 0 and 99: a run never reports 100 percent. *)
Theorem status_calls_in_range {D} (hw : rvswd_transport D)
    (fuel : nat) (addr : Z) (data : buffer) (data_len : Z) (w w' : world D) (r : bool) :
  addr mod 64 = 0 ->
  0 <= data_len <= 21474836 ->
  (chunk_count data_len <= fuel)%nat ->
  ch32_write_flash hw fuel addr data data_len w = Some (r, w') ->
  exists evs,
    trace w' = trace w ++ evs /\
    forall msg progress total,
      In (EvStatus msg progress total) evs ->
      0 <= progress < total /\
      total = data_len /\
      progress mod 256 = 0 /\
      exists percent,
        default_status_percent progress total = Some percent /\ 0 <= percent < 100.
Proof.
  intros Hal Hlen Hfuel E.
  assert (Heq : ch32_write_flash hw fuel addr data data_len w
                = write_chunks hw fuel addr data data_len (chunk_offsets data_len) w).
  { unfold ch32_write_flash. apply Z.eqb_eq in Hal. rewrite Hal. cbn [negb].
    destruct (chunk_count_covers data_len) as [Hcover Hlast]; [lia|].
    apply write_flash_loop_chunks; auto; lia. }
  rewrite Heq in E.
  destruct (write_chunks_status hw fuel addr data data_len _ _ _ _ E)
    as (evs & Et & m & _ & Hst & _).
  exists evs. split; [exact Et|].
  intros msg progress total Hin.
  assert (Hf : In (EvStatus msg progress total) (filter is_status evs))
    by (apply filter_In; split; [assumption | reflexivity]).
  rewrite Hst in Hf. apply in_map_iff in Hf. destruct Hf as (offset & Hev & Hoff).
  unfold status_event in Hev. injection Hev as _ <- <-.
  apply in_firstn in Hoff.
  pose proof (in_chunk_offsets data_len offset (proj1 Hlen) Hoff) as Hrange.
  apply in_offsets_from in Hoff. destruct Hoff as (k & _ & Hk).
  split; [exact Hrange|]. split; [reflexivity|]. split.
  - rewrite Hk, Z.add_0_l, Z.mul_comm. apply Z.mod_mul. lia.
  - apply default_status_percent_in_range; lia.
Qed.

Lemma status_calls_in_range_witness :
  exists r w' evs,
    ch32_write_flash (const_target 0) 2 0x08000000 zeros 512 (power_on tt) = Some (r, w') /\
    trace w' = trace (power_on tt) ++ evs /\
    forall msg progress total,
      In (EvStatus msg progress total) evs ->
      0 <= progress < total /\
      total = 512 /\
      progress mod 256 = 0 /\
      exists percent,
        default_status_percent progress total = Some percent /\ 0 <= percent < 100.
Proof.
  destruct (ch32_write_flash (const_target 0) 2 0x08000000 zeros 512 (power_on tt))
    as [[r w']|] eqn:E; [|vm_compute in E; discriminate].
  assert (Hlen : 0 <= 512 <= 21474836) by lia.
  assert (Hfuel : (chunk_count 512 <= 2)%nat) by (vm_compute; lia).
  destruct (status_calls_in_range (const_target 0) 2 0x08000000 zeros 512
              (power_on tt) w' r eq_refl Hlen Hfuel E) as (evs & H).
  exists r, w', evs. split; [reflexivity | exact H].
Defined.

(** ** The orchestrator: how a run ends *)

Section Outcome.

Context {D : Type} (hw : rvswd_transport D).

Lemma ends_with_outcome_app (e1 e2 : list event) :
  ends_with_outcome e2 -> ends_with_outcome (e1 ++ e2).
Proof.
  intros (before & m & -> & Hm). exists (e1 ++ before), m.
  rewrite app_assoc. auto.
Qed.

Lemma ends_with_outcome_log (m : log_msg) :
  is_outcome m = true ->
  emits (D := D) (log m) (fun _ evs => ends_with_outcome evs).
Proof.
  intros Hm. eapply emits_weaken; [apply emits_emit|]. cbv beta.
  intros _ evs ->. exists [], m. auto.
Qed.

(** Whatever runs first, a run ends as its continuation ends. *)
Lemma emits_then_outcome {A B} (m : M D A) (k : A -> M D B) :
  emits m (fun _ _ => True) ->
  (forall a, emits (k a) (fun _ evs => ends_with_outcome evs)) ->
  emits (bind m k) (fun _ evs => ends_with_outcome evs).
Proof.
  intros Hm Hk. eapply emits_bind; [exact Hm|]. cbv beta. intros a e1 _.
  eapply emits_weaken; [apply Hk|]. cbv beta. intros _ e2 H.
  apply ends_with_outcome_app. exact H.
Qed.

Lemma emits_anything {A} (m : M D A) P : emits m P -> emits m (fun _ _ => True).
Proof. intros H. eapply emits_weaken; [exact H|]. auto. Qed.

Lemma do_init_emits : emits (do_init hw) (fun _ evs => evs = [EvInit]).
Proof.
  intros w res w' E. unfold do_init in E.
  destruct (rvswd_init hw (dev w)) as [res0 d]. injection E as <- <-.
  exists [EvInit]. auto.
Qed.

Lemma do_reset_emits : emits (do_reset hw) (fun _ evs => evs = [EvReset]).
Proof.
  intros w res w' E. unfold do_reset in E.
  destruct (rvswd_reset hw (dev w)) as [res0 d]. injection E as <- <-.
  exists [EvReset]. auto.
Qed.

Lemma write_flash_loop_grows (fuel n : nat) (addr : Z) (data : buffer) (data_len i : Z) :
  emits (write_flash_loop hw fuel n addr data data_len i) (fun _ _ => True).
Proof.
  revert i. induction n as [|n IH]; intros i; cbn [write_flash_loop];
    destruct (i <? data_len);
    try (apply emits_ret; exact I); try apply emits_out_of_fuel.
  estep emits_emit. estep emits_emit.
  estep ch32_erase_flash_block_quiet.
  destruct (negb a1).
  - estep emits_emit. apply emits_ret. exact I.
  - estep ch32_write_flash_block_quiet.
    destruct (negb a2).
    + estep emits_emit. apply emits_ret. exact I.
    + eapply emits_weaken; [apply IH|]. auto.
Qed.

Lemma ch32_write_flash_grows (fuel : nat) (addr : Z) (data : buffer) (data_len : Z) :
  emits (ch32_write_flash hw fuel addr data data_len) (fun _ _ => True).
Proof.
  unfold ch32_write_flash. destruct (negb (addr mod 64 =? 0)).
  - apply emits_ret. exact I.
  - apply write_flash_loop_grows.
Qed.

Lemma ch32_program_ends_with_outcome (fuel : nat) (firmware : buffer) (firmware_len : Z) :
  emits (ch32_program hw fuel firmware firmware_len)
        (fun _ evs => exists rest, evs = EvInit :: rest /\ ends_with_outcome rest).
Proof.
  unfold ch32_program.
  estep do_init_emits. subst.
  eapply emits_weaken with (P := fun _ evs => ends_with_outcome evs);
    [|cbv beta; intros _ evs H; exists evs; split; [reflexivity | exact H]].
  destruct (negb (a =? RVSWD_OK hw)); [apply ends_with_outcome_log; reflexivity|].
  apply emits_then_outcome; [apply (emits_anything _ _ do_reset_emits) | intros res].
  destruct (negb (res =? RVSWD_OK hw)); [apply ends_with_outcome_log; reflexivity|].
  apply emits_then_outcome;
    [apply (emits_anything _ _ (total_emits _ _ (ch32_halt_microprocessor_total hw)))
    | intros res2].
  destruct (negb (res2 =? RVSWD_OK hw)); [apply ends_with_outcome_log; reflexivity|].
  apply emits_then_outcome;
    [apply (emits_anything _ _ (total_emits _ _ (ch32_unlock_flash_total hw)))
    | intros bool_res].
  apply emits_then_outcome; [apply (emits_anything _ _ (emits_emit _)) | intros _].
  destruct (negb bool_res); [apply ends_with_outcome_log; reflexivity|].
  apply emits_then_outcome; [apply ch32_write_flash_grows | intros bool_res2].
  destruct (negb bool_res2); [apply ends_with_outcome_log; reflexivity|].
  apply emits_then_outcome;
    [apply (emits_anything _ _
              (total_emits _ _ (ch32_reset_microprocessor_and_run_total hw)))
    | intros res3].
  destruct (negb (res3 =? RVSWD_OK hw)); apply ends_with_outcome_log; reflexivity.
Qed.

Lemma returns_program (fuel : nat) (firmware : buffer) (firmware_len : Z) :
  waits_return hw fuel ->
  0 <= firmware_len < 2 ^ 31 ->
  (chunk_count firmware_len <= fuel)%nat ->
  returns (ch32_program hw fuel firmware firmware_len).
Proof.
  intros Hwaits Hlen Hfuel. unfold ch32_program.
  apply returns_bind.
  { intros w. unfold do_init. destruct (rvswd_init hw (dev w)). discriminate. }
  intros res. destruct (negb (res =? RVSWD_OK hw)); [apply returns_emit|].
  apply returns_bind.
  { intros w. unfold do_reset. destruct (rvswd_reset hw (dev w)). discriminate. }
  intros res1. destruct (negb (res1 =? RVSWD_OK hw)); [apply returns_emit|].
  apply returns_bind;
    [exact (total_returns _ _ (ch32_halt_microprocessor_total hw)) | intros res2].
  destruct (negb (res2 =? RVSWD_OK hw)); [apply returns_emit|].
  apply returns_bind;
    [exact (total_returns _ _ (ch32_unlock_flash_total hw)) | intros bool_res].
  apply returns_bind; [apply returns_emit | intros _].
  destruct (negb bool_res); [apply returns_emit|].
  apply returns_bind.
  { intros w. unfold ch32_write_flash. change (0x08000000 mod 64 =? 0) with true.
    cbn [negb].
    destruct (chunk_count_covers firmware_len) as [Hcover Hlast]; [lia|].
    rewrite (write_flash_loop_chunks hw fuel 0x08000000 firmware firmware_len Hlen
               (chunk_count firmware_len) fuel 0 w) by (auto; lia).
    apply returns_write_chunks. assumption. }
  intros bool_res2. destruct (negb bool_res2); [apply returns_emit|].
  apply returns_bind;
    [exact (total_returns _ _ (ch32_reset_microprocessor_and_run_total hw)) | intros res3].
  destruct (negb (res3 =? RVSWD_OK hw)); apply returns_emit.
Qed.

End Outcome.

(** X12: a run of [ch32_program] begins with [rvswd_init] and, when it
    returns, its last action was to log one of the seven outcome messages:
    the error of the step that stopped it, or the final OK.  It returns
    whenever the flash controller's busy bits clear within the turns given
    to the waits and to the write loop. *)
Theorem program_reports_outcome {D} (hw : rvswd_transport D)
    (fuel : nat) (firmware : buffer) (firmware_len : Z) (w : world D) :
  (forall w',
     ch32_program hw fuel firmware firmware_len w = Some (tt, w') ->
     exists middle m,
       trace w' = trace w ++ EvInit :: middle ++ [EvLog m] /\
       is_outcome m = true) /\
  (waits_return hw fuel ->
   0 <= firmware_len < 2 ^ 31 ->
   (chunk_count firmware_len <= fuel)%nat ->
   exists w', ch32_program hw fuel firmware firmware_len w = Some (tt, w')).
Proof.
  split.
  - intros w' E.
    destruct (ch32_program_ends_with_outcome hw fuel firmware firmware_len _ _ _ E)
      as (evs & Et & rest & -> & middle & m & -> & Hm).
    exists middle, m. auto.
  - intros Hwaits Hlen Hfuel.
    pose proof (returns_program hw fuel firmware firmware_len Hwaits Hlen Hfuel w) as Hr.
    destruct (ch32_program hw fuel firmware firmware_len w) as [[[] w']|];
      [eauto | congruence].
Qed.

Lemma program_reports_outcome_witness :
  exists w' middle m,
    ch32_program (const_target 0) 1 zeros 256 (power_on tt) = Some (tt, w') /\
    trace w' = trace (power_on tt) ++ EvInit :: middle ++ [EvLog m] /\
    is_outcome m = true.
Proof.
  destruct (program_reports_outcome (const_target 0) 1 zeros 256 (power_on tt))
    as [Hpart Htotal].
  assert (Hlen : 0 <= 256 < 2 ^ 31) by lia.
  assert (Hfuel : (chunk_count 256 <= 1)%nat) by (vm_compute; lia).
  destruct (Htotal (const_target_waits_return 1) Hlen Hfuel) as (w' & E).
  destruct (Hpart w' E) as (middle & m & H).
  exists w', middle, m. split; [exact E | exact H].
Defined.
